(** * Trove resources of terraform-provider-openstack: create / poll / read / delete

    A shallow embedding of the four resource adapters
    (instance, database, user, configuration group) and of the
    poll-until-state primitive they drive, followed by the properties of the
    reconciliation pattern. *)

From Stdlib Require Import ZArith String Ascii List Lia.
From stdpp Require Import base strings gmap list.

Local Open Scope string_scope.

(** ** Errors

    Go's [error] values that the adapters can see.  The adapters branch on
    one kind only, [gophercloud.ErrDefault404]; everything else is opaque to
    them and is rendered with [Error()] inside [fmt.Errorf]. *)

Inductive error : Type :=
| ErrDefault404 (msg : string)          (* gophercloud.ErrDefault404 *)
| ErrRemote (msg : string)              (* any other error of the API client *)
| errorString (msg : string)            (* the value built by fmt.Errorf *)
| TimeoutError (LastState : string)     (* the poll window is exhausted *)
| UnexpectedStateError (State : string) (ExpectedState : list string).

Definition Error (e : error) : string :=
  match e with
  | ErrDefault404 msg => msg
  | ErrRemote msg => msg
  | errorString msg => msg
  | TimeoutError last => "timeout while waiting for state (last state: '" +:+ last +:+ "')"
  | UnexpectedStateError st _ => "unexpected state '" +:+ st +:+ "'"
  end.

(** [_, ok := err.(gophercloud.ErrDefault404)] *)
Definition is_ErrDefault404 (e : error) : bool :=
  match e with ErrDefault404 _ => true | _ => false end.

#[global] Instance error_eq_dec : EqDecision error.
Proof. solve_decision. Defined.

(** ** The remote system

    Every call of the API client may observe and change the remote system;
    [R] is its state and [Remote R A] a computation over it. *)

Definition Remote (R A : Type) : Type := R → A * R.

Definition ret {R A} (a : A) : Remote R A := λ w, (a, w).

Definition bind {R A B} (m : Remote R A) (k : A → Remote R B) : Remote R B :=
  λ w, let '(a, w') := m w in k a w'.

Notation "'call' x <- m ; k" := (bind m (λ x, k))
  (at level 10, x pattern, m at level 100, k at level 200,
   format "'[v' 'call'  x  <-  m ; '/' k ']'").

(** ** Poll-until-state *)

Module resource.

(** What a [StateRefreshFunc] returns: [(interface{}, string, error)]. *)
Record Probe (A : Type) : Type := mkProbe {
  Result : option A;
  State : string;
  Err : option error }.
Arguments mkProbe {A} _ _ _.
Arguments Result {A} _.
Arguments State {A} _.
Arguments Err {A} _.

(** [Timeout] is the poll window, counted in the probes that fit into it
    after the first one; [Delay] and [MinTimeout] are in seconds. *)
Record StateChangeConf (R A : Type) : Type := mkStateChangeConf {
  Pending : list string;
  Target : list string;
  Refresh : Remote R (Probe A);
  Timeout : nat;
  Delay : Z;
  MinTimeout : Z }.
Arguments Pending {R A} _.
Arguments Target {R A} _.
Arguments Refresh {R A} _.
Arguments Timeout {R A} _.
Arguments Delay {R A} _.
Arguments MinTimeout {R A} _.

Definition contains (l : list string) (s : string) : bool := bool_decide (s ∈ l).

(** Modelled from the spec: [StateChangeConf.WaitForState] of the
    helper/resource package is not among the sources.  It probes at once;
    a state of the target set ends the poll with success, a state of the
    pending set is followed by another probe as long as the window lasts,
    and a probe error or any other state ends the poll with an error. *)
Fixpoint poll {R A} (conf : StateChangeConf R A) (retries : nat) (w : R)
  : (string * option error) * R :=
  let '(p, w1) := Refresh conf w in
  match Err p with
  | Some err => (("", Some err), w1)
  | None =>
      if contains (Target conf) (State p) then ((State p, None), w1)
      else if contains (Pending conf) (State p) then
        match retries with
        | O => (("", Some (TimeoutError (State p))), w1)
        | S n => poll conf n w1
        end
      else (("", Some (UnexpectedStateError (State p) (Target conf))), w1)
  end.

(** [WaitForState(spec) -> (finalState, error)] *)
Definition WaitForState {R A} (conf : StateChangeConf R A)
  : Remote R (string * option error) :=
  poll conf (Timeout conf).

End resource.

(** ** The API client (gophercloud, db/v1)

    The wire types carry the fields the adapters read or write. *)

Module databases.
Module Database.
Record t : Type := mk { Name : string; CharSet : string; Collate : string }.
End Database.
Module CreateOpts.
Record t : Type := mk { Name : string; CharSet : string; Collate : string }.
End CreateOpts.
Definition BatchCreateOpts : Type := list CreateOpts.t.
End databases.

Module users.
Module User.
Record t : Type := mk {
  Name : string; Password : string; Databases : list databases.Database.t }.
End User.
Module CreateOpts.
Record t : Type := mk {
  Name : string; Password : string; Host : string;
  Databases : databases.BatchCreateOpts }.
End CreateOpts.
Definition BatchCreateOpts : Type := list CreateOpts.t.
End users.

Module instances.
Module DatastoreOpts.
Record t : Type := mk { Version : string; Type_ : string }.
(** the zero value of [var datastore instances.DatastoreOpts] *)
Definition zero : t := mk "" "".
End DatastoreOpts.
Module NetworkOpts.
Record t : Type := mk {
  UUID : string; Port : string; V4FixedIP : string; V6FixedIP : string }.
End NetworkOpts.
Module CreateOpts.
Record t : Type := mk {
  FlavorRef : string; Name : string; Size : Z;
  Datastore : DatastoreOpts.t;
  Networks : list NetworkOpts.t;
  Databases : databases.BatchCreateOpts;
  Users : users.BatchCreateOpts }.
End CreateOpts.
Module Instance.
Record t : Type := mk {
  ID : string; Name : string; Status : string; Flavor : string;
  Datastore : DatastoreOpts.t }.
End Instance.
End instances.

(** A configuration value on the wire: [interface{}] holding a string or an int. *)
Inductive value : Type :=
| VString (s : string)
| VInt (n : Z).

#[global] Instance value_eq_dec : EqDecision value.
Proof. solve_decision. Defined.

Module configurations.
Module DatastoreOpts.
Record t : Type := mk { Version : string; Type_ : string }.
Definition zero : t := mk "" "".
End DatastoreOpts.
Module CreateOpts.
Record t : Type := mk {
  Name : string; Description : string;
  Datastore : DatastoreOpts.t;
  Values : gmap string value }.
End CreateOpts.
(** [configurations.Config]; the earlier revision declares the same
    struct itself as [ConfigZ]. *)
Module Config.
Record t : Type := mk {
  Created : string; Updated : string;
  DatastoreName : string; DatastoreVersionID : string;
  DatastoreVersionName : string;
  Description : string; ID : string; Name : string;
  Values : gmap string value }.
End Config.
End configurations.

(** [Result] as the earlier configuration-group revision declares it next
    to its own [Create]: the body of the response and the deferred error of
    the call ([Header] is never read). *)
Record Result (J : Type) : Type := mkResult {
  Body : option J;
  Err : option error }.
Arguments mkResult {J} _ _.
Arguments Body {J} _.
Arguments Err {J} _.

(** The collaborators of the adapters: the provider configuration that
    hands out a client, and the calls of that client.  A call that the Go
    code writes [x, err := ...] and checks at once returns [error + X]; the
    paged listings return the page and the error side by side, as
    [resourceDatabaseDelete] goes on with the page whatever the error. *)
Class OpenStack (R : Type) : Type := {
  Config : Type;
  ServiceClient : Type;
  GetRegion : string → Config → string;
  databaseInstanceClient : Config → string → error + ServiceClient;

  DBPage : Type;
  databases_Create :
    ServiceClient → string → databases.BatchCreateOpts → Remote R (option error);
  databases_List_AllPages : ServiceClient → string → Remote R (DBPage * option error);
  databases_ExtractDBs : DBPage → list databases.Database.t * option error;
  databases_Delete : ServiceClient → string → string → Remote R (option error);

  UserPage : Type;
  users_Create :
    ServiceClient → string → users.BatchCreateOpts → Remote R (option error);
  users_List_AllPages : ServiceClient → string → Remote R (UserPage * option error);
  users_ExtractUsers : UserPage → list users.User.t * option error;
  users_Delete : ServiceClient → string → string → Remote R (option error);

  instances_Create :
    ServiceClient → instances.CreateOpts.t → Remote R (error + instances.Instance.t);
  instances_Get : ServiceClient → string → Remote R (error + instances.Instance.t);
  instances_Delete : ServiceClient → string → Remote R (option error);

  (** the configuration calls hand back the response body, which
      [Extract] decodes *)
  JSON : Type;
  configurations_Create :
    ServiceClient → configurations.CreateOpts.t → Remote R (Result JSON);
  configurations_Get : ServiceClient → string → Remote R (Result JSON);
  configurations_Delete : ServiceClient → string → Remote R (option error);
  json_Decode_configuration : option JSON → error + configurations.Config.t;

  (** what the earlier configuration-group revision's own [Create] uses *)
  ToConfigCreateMap : configurations.CreateOpts.t → error + JSON;
  ServiceURL : ServiceClient → string → string;
  Post : ServiceClient → string → JSON → list Z → Remote R (option JSON * option error) }.

(** The sources hold two revisions of the instance and of the
    configuration-group adapter. *)
Inductive revision : Type :=
| openstack_dir      (* src/openstack/resource_openstack_db_*.go *)
| unnamed_part.      (* src/unnamed/part_002, part_003 *)

(** ** Database *)

Module Database.

Record ResourceData : Type := mkData {
  Id : string;
  region : string; name : string; instance : string;
  charset : string; collate : string;
  TimeoutCreate : nat; TimeoutDelete : nat }.

Definition SetId (id : string) (d : ResourceData) : ResourceData :=
  mkData id (region d) (name d) (instance d) (charset d) (collate d)
         (TimeoutCreate d) (TimeoutDelete d).

(** [d.Set("name", ..); d.Set("charset", ..); d.Set("collate", ..)] *)
Definition Set_attrs (v : databases.Database.t) (d : ResourceData) : ResourceData :=
  mkData (Id d) (region d) (databases.Database.Name v) (instance d)
         (databases.Database.CharSet v) (databases.Database.Collate v)
         (TimeoutCreate d) (TimeoutDelete d).

Definition named (dbname : string) (v : databases.Database.t) : bool :=
  bool_decide (databases.Database.Name v = dbname).

Section Adapter.
Context {R : Type} `{!OpenStack R}.

Definition DatabaseStateRefreshFunc (client : ServiceClient)
    (instance_id dbname : string)
  : Remote R (resource.Probe databases.Database.t) :=
  call (pages, err) <- databases_List_AllPages client instance_id;
  match err with
  | Some err =>
      ret (resource.mkProbe None ""
             (Some (errorString
                ("Unable to retrieve databases, pageszzz: " +:+ Error err))))
  | None =>
      let '(allDatabases, err) := databases_ExtractDBs pages in
      match err with
      | Some err =>
          ret (resource.mkProbe None ""
                 (Some (errorString
                    ("Unable to retrieve databases, extract: " +:+ Error err))))
      | None =>
          match List.find (named dbname) allDatabases with
          | Some v => ret (resource.mkProbe (Some v) "ACTIVE" None)
          | None =>
              ret (resource.mkProbe None ""
                     (Some (errorString
                        ("Error retrieving database " +:+ dbname +:+ " status"))))
          end
      end
  end.

Definition resourceDatabaseRead (d : ResourceData) (meta : Config)
  : Remote R (option error * ResourceData) :=
  match databaseInstanceClient meta (GetRegion (region d) meta) with
  | inl err =>
      ret (Some (errorString
             ("Error creating OpenStack cloud database client: " +:+ Error err)), d)
  | inr databaseInstanceClient =>
      let dbname := name d in
      call (pages, err) <- databases_List_AllPages databaseInstanceClient (Id d);
      match err with
      | Some err =>
          ret (Some (errorString
                 ("Unable to retrieve databases, pages: " +:+ Error err)), d)
      | None =>
          let '(allDatabases, err) := databases_ExtractDBs pages in
          match err with
          | Some err =>
              ret (Some (errorString
                     ("Unable to retrieve databases, extract: " +:+ Error err)), d)
          | None =>
              match List.find (named dbname) allDatabases with
              | Some v => ret (None, Set_attrs v d)
              | None => ret (None, d)
              end
          end
      end
  end.

Definition resourceDatabaseCreate (d : ResourceData) (meta : Config)
  : Remote R (option error * ResourceData) :=
  match databaseInstanceClient meta (GetRegion (region d) meta) with
  | inl err =>
      ret (Some (errorString
             ("Error creating cloud database client: " +:+ Error err)), d)
  | inr databaseInstanceClient =>
      let dbname := name d in
      let dbs : databases.BatchCreateOpts :=
        ([] ++ [databases.CreateOpts.mk dbname (charset d) (collate d)])%list in
      let instance_id := instance d in
      call _ <- databases_Create databaseInstanceClient instance_id dbs;
      let stateConf :=
        resource.mkStateChangeConf R _
          ["BUILD"] ["ACTIVE"]
          (DatabaseStateRefreshFunc databaseInstanceClient instance_id dbname)
          (TimeoutCreate d) 10 3 in
      call (_, err) <- resource.WaitForState stateConf;
      match err with
      | Some err =>
          ret (Some (errorString
                 ("Error waiting for database (" +:+ Error err
                  +:+ ") to become ready")), d)
      | None =>
          let d := SetId instance_id d in
          resourceDatabaseRead d meta
      end
  end.

Definition resourceDatabaseDelete (d : ResourceData) (meta : Config)
  : Remote R (option error * ResourceData) :=
  match databaseInstanceClient meta (GetRegion (region d) meta) with
  | inl err =>
      ret (Some (errorString
             ("Error creating OpenStack cloud database client: " +:+ Error err)), d)
  | inr databaseInstanceClient =>
      let dbname := name d in
      call (pages, _) <- databases_List_AllPages databaseInstanceClient (Id d);
      let '(allDatabases, err) := databases_ExtractDBs pages in
      match err with
      | Some err =>
          ret (Some (errorString
                 ("Unable to retrieve databases: " +:+ Error err)), d)
      | None =>
          let dbExists := existsb (named dbname) allDatabases in
          call _ <- databases_Delete databaseInstanceClient (Id d) dbname;
          ret (None, SetId "" d)
      end
  end.

End Adapter.
End Database.

(** ** User *)

Module DbUser.

Record ResourceData : Type := mkData {
  Id : string;
  region : string; name : string; instance : string;
  password : string; host : string;
  databases : list string;          (* the elements of the set, as its List() gives them *)
  TimeoutCreate : nat; TimeoutDelete : nat }.

Definition SetId (id : string) (d : ResourceData) : ResourceData :=
  mkData id (region d) (name d) (instance d) (password d) (host d)
         (databases d) (TimeoutCreate d) (TimeoutDelete d).

(** [d.Set("name", ..); d.Set("password", ..); d.Set("databases", ..)] *)
Definition Set_attrs (v : users.User.t) (d : ResourceData) : ResourceData :=
  mkData (Id d) (region d) (users.User.Name v) (instance d)
         (users.User.Password v) (host d)
         (map databases.Database.Name (users.User.Databases v))
         (TimeoutCreate d) (TimeoutDelete d).

Definition named (username : string) (v : users.User.t) : bool :=
  bool_decide (users.User.Name v = username).

Section Adapter.
Context {R : Type} `{!OpenStack R}.

Definition DbUserStateRefreshFunc (client : ServiceClient)
    (instance_id username : string)
  : Remote R (resource.Probe users.User.t) :=
  call (pages, err) <- users_List_AllPages client instance_id;
  match err with
  | Some err =>
      ret (resource.mkProbe None ""
             (Some (errorString
                ("Unable to retrieve users, pages: " +:+ Error err))))
  | None =>
      let '(allUsers, err) := users_ExtractUsers pages in
      match err with
      | Some err =>
          ret (resource.mkProbe None ""
                 (Some (errorString
                    ("Unable to retrieve users, extract: " +:+ Error err))))
      | None =>
          match List.find (named username) allUsers with
          | Some v => ret (resource.mkProbe (Some v) "ACTIVE" None)
          | None =>
              ret (resource.mkProbe None ""
                     (Some (errorString
                        ("Error retrieving user " +:+ username +:+ " status"))))
          end
      end
  end.

Definition resourceDbUserRead (d : ResourceData) (meta : Config)
  : Remote R (option error * ResourceData) :=
  match databaseInstanceClient meta (GetRegion (region d) meta) with
  | inl err =>
      ret (Some (errorString
             ("Error creating OpenStack cloud database client: " +:+ Error err)), d)
  | inr databaseInstanceClient =>
      let username := name d in
      call (pages, err) <- users_List_AllPages databaseInstanceClient (Id d);
      match err with
      | Some err =>
          ret (Some (errorString
                 ("Unable to retrieve users, pages: " +:+ Error err)), d)
      | None =>
          let '(allUsers, err) := users_ExtractUsers pages in
          match err with
          | Some err =>
              ret (Some (errorString
                     ("Unable to retrieve users, extract: " +:+ Error err)), d)
          | None =>
              match List.find (named username) allUsers with
              | Some v => ret (None, Set_attrs v d)
              | None => ret (None, d)
              end
          end
      end
  end.

Definition resourceDbUserCreate (d : ResourceData) (meta : Config)
  : Remote R (option error * ResourceData) :=
  match databaseInstanceClient meta (GetRegion (region d) meta) with
  | inl err =>
      ret (Some (errorString
             ("Error creating cloud database client: " +:+ Error err)), d)
  | inr databaseInstanceClient =>
      let username := name d in
      let raw_dbs := databases d in
      let dbs : databases.BatchCreateOpts :=
        map (λ db, databases.CreateOpts.mk db "" "") raw_dbs in
      let users_list : users.BatchCreateOpts :=
        ([] ++ [users.CreateOpts.mk username (password d) (host d) dbs])%list in
      let instance_id := instance d in
      call _ <- users_Create databaseInstanceClient instance_id users_list;
      let stateConf :=
        resource.mkStateChangeConf R _
          ["BUILD"] ["ACTIVE"]
          (DbUserStateRefreshFunc databaseInstanceClient instance_id username)
          (TimeoutCreate d) 10 3 in
      call (_, err) <- resource.WaitForState stateConf;
      match err with
      | Some err =>
          ret (Some (errorString
                 ("Error waiting for user (" +:+ Error err
                  +:+ ") to be created")), d)
      | None =>
          let d := SetId instance_id d in
          resourceDbUserRead d meta
      end
  end.

Definition resourceDbUserDelete (d : ResourceData) (meta : Config)
  : Remote R (option error * ResourceData) :=
  match databaseInstanceClient meta (GetRegion (region d) meta) with
  | inl err =>
      ret (Some (errorString
             ("Error creating OpenStack cloud database client: " +:+ Error err)), d)
  | inr databaseInstanceClient =>
      let username := name d in
      call (pages, _) <- users_List_AllPages databaseInstanceClient (Id d);
      let '(allUsers, err) := users_ExtractUsers pages in
      match err with
      | Some err =>
          ret (Some (errorString
                 ("Unable to retrieve users: " +:+ Error err)), d)
      | None =>
          let userExists := existsb (named username) allUsers in
          call _ <- users_Delete databaseInstanceClient (Id d) username;
          ret (None, SetId "" d)
      end
  end.

End Adapter.
End DbUser.

(** Modelled from the spec: the helper [CheckDeleted] that both [Read]
    operations of instance and configuration group hand a failed fetch to is
    not among the sources.  A not-found error is not an error of the read:
    the object is dropped from the tracked state, which is what clearing the
    identifier does; any other error fails the read. *)
Definition CheckDeleted {D : Type} (SetId : string → D → D)
    (d : D) (err : error) (msg : string) : option error * D :=
  if is_ErrDefault404 err then (None, SetId "" d)
  else (Some (errorString (msg +:+ ": " +:+ Error err)), d).

(** ** Instance *)

Module DbInstance.

Record datastore_block : Type := mkDatastore { version : string; type_ : string }.
Record network_block : Type := mkNetwork {
  uuid : string; port : string; fixed_ip_v4 : string; fixed_ip_v6 : string }.
Record database_block : Type := mkDatabase {
  db_name : string; db_charset : string; db_collate : string }.
Record user_block : Type := mkUser {
  user_name : string; user_password : string; user_host : string;
  user_databases : list string }.

(** [network], [database] and [user] are declared by the later revision
    only; the earlier one never looks at them. *)
Record ResourceData : Type := mkData {
  Id : string;
  region : string; name : string; flavor_id : string; size : Z;
  datastore : list datastore_block;
  network : list network_block;
  database : list database_block;
  user : list user_block;
  TimeoutCreate : nat; TimeoutDelete : nat }.

Definition SetId (id : string) (d : ResourceData) : ResourceData :=
  mkData id (region d) (name d) (flavor_id d) (size d) (datastore d)
         (network d) (database d) (user d) (TimeoutCreate d) (TimeoutDelete d).

(** the four [d.Set] of [resourceDatabaseInstanceRead] *)
Definition Set_attrs (i : instances.Instance.t) (rgn : string) (d : ResourceData)
  : ResourceData :=
  mkData (Id d) rgn (instances.Instance.Name i) (instances.Instance.Flavor i)
         (size d)
         [mkDatastore (instances.DatastoreOpts.Version (instances.Instance.Datastore i))
                      (instances.DatastoreOpts.Type_ (instances.Instance.Datastore i))]
         (network d) (database d) (user d) (TimeoutCreate d) (TimeoutDelete d).

Definition getDatabases (v : list string) : databases.BatchCreateOpts :=
  foldl (λ dbs db, (dbs ++ [databases.CreateOpts.mk db "" ""])%list) [] v.

(** The request that [resourceDatabaseInstanceCreate] builds before it
    calls [instances.Create].  [d.GetOk] of a list is ok when the list is
    not empty, and each block reads element [0] of it. *)
Definition createOpts (rev : revision) (d : ResourceData) : instances.CreateOpts.t :=
  let datastore :=
    match datastore d with
    | pV :: _ => instances.DatastoreOpts.mk (version pV) (type_ pV)
    | [] => instances.DatastoreOpts.zero
    end in
  match rev with
  | openstack_dir =>
      instances.CreateOpts.mk (flavor_id d) (name d) (size d) datastore [] [] []
  | unnamed_part =>
      let networks :=
        match network d with
        | pV :: _ =>
            ([] ++ [instances.NetworkOpts.mk (uuid pV) (port pV)
                      (fixed_ip_v4 pV) (fixed_ip_v6 pV)])%list
        | [] => []
        end in
      let dbs : databases.BatchCreateOpts :=
        match database d with
        | pV :: _ =>
            ([] ++ [databases.CreateOpts.mk (db_name pV) (db_charset pV)
                      (db_collate pV)])%list
        | [] => []
        end in
      let users_list : users.BatchCreateOpts :=
        match user d with
        | pV :: _ =>
            let raw_databases := user_databases pV in
            ([] ++ [users.CreateOpts.mk (user_name pV) (user_password pV)
                      (user_host pV) (getDatabases raw_databases)])%list
        | [] => []
        end in
      instances.CreateOpts.mk (flavor_id d) (name d) (size d) datastore
                              networks dbs users_list
  end.

Section Adapter.
Context {R : Type} `{!OpenStack R}.

Definition InstanceStateRefreshFunc (client : ServiceClient) (instanceID : string)
  : Remote R (resource.Probe instances.Instance.t) :=
  call r <- instances_Get client instanceID;
  match r with
  | inl err =>
      if is_ErrDefault404 err then ret (resource.mkProbe None "deleted" None)
      else ret (resource.mkProbe None "" (Some err))
  | inr i =>
      if bool_decide (instances.Instance.Status i = "error") then
        ret (resource.mkProbe (Some i) (instances.Instance.Status i)
               (Some (errorString "There was an error creating the instance.")))
      else ret (resource.mkProbe (Some i) (instances.Instance.Status i) None)
  end.

Definition resourceDatabaseInstanceRead (d : ResourceData) (meta : Config)
  : Remote R (option error * ResourceData) :=
  match databaseInstanceClient meta (GetRegion (region d) meta) with
  | inl err =>
      ret (Some (errorString
             ("Error creating OpenStack cloud database client: " +:+ Error err)), d)
  | inr databaseInstanceClient =>
      call r <- instances_Get databaseInstanceClient (Id d);
      match r with
      | inl err => ret (CheckDeleted SetId d err "instance")
      | inr instance =>
          ret (None, Set_attrs instance (GetRegion (region d) meta) d)
      end
  end.

Definition resourceDatabaseInstanceCreate (rev : revision)
    (d : ResourceData) (meta : Config)
  : Remote R (option error * ResourceData) :=
  match databaseInstanceClient meta (GetRegion (region d) meta) with
  | inl err =>
      ret (Some (errorString
             ("Error creating cloud database client: " +:+ Error err)), d)
  | inr databaseInstanceClient =>
      call r <- instances_Create databaseInstanceClient (createOpts rev d);
      match r with
      | inl err =>
          ret (Some (errorString
                 ("Error creating cloud database instance: " +:+ Error err)), d)
      | inr instance =>
          let stateConf :=
            resource.mkStateChangeConf R _
              ["BUILD"] ["ACTIVE"]
              (InstanceStateRefreshFunc databaseInstanceClient
                 (instances.Instance.ID instance))
              (TimeoutCreate d) 10 3 in
          call (_, err) <- resource.WaitForState stateConf;
          match err with
          | Some err =>
              ret (Some (errorString
                     ("Error waiting for instance ("
                      +:+ instances.Instance.ID instance
                      +:+ ") to become ready: " +:+ Error err)), d)
          | None =>
              let d := SetId (instances.Instance.ID instance) d in
              resourceDatabaseInstanceRead d meta
          end
      end
  end.

Definition resourceDatabaseInstanceDelete (d : ResourceData) (meta : Config)
  : Remote R (option error * ResourceData) :=
  match databaseInstanceClient meta (GetRegion (region d) meta) with
  | inl err =>
      ret (Some (errorString
             ("Error creating RS cloud instance client: " +:+ Error err)), d)
  | inr databaseInstanceClient =>
      call err <- instances_Delete databaseInstanceClient (Id d);
      match err with
      | Some err =>
          ret (Some (errorString
                 ("Error deleting cloud database instance: " +:+ Error err)), d)
      | None =>
          let stateConf :=
            resource.mkStateChangeConf R _
              ["ACTIVE"; "SHUTOFF"] ["deleted"]
              (InstanceStateRefreshFunc databaseInstanceClient (Id d))
              (TimeoutDelete d) 10 3 in
          call (_, err) <- resource.WaitForState stateConf;
          match err with
          | Some err =>
              ret (Some (errorString
                     ("Error waiting for instance (" +:+ Id d
                      +:+ ") to delete: " +:+ Error err)), d)
          | None => ret (None, SetId "" d)
          end
      end
  end.

End Adapter.
End DbInstance.

(** ** strconv.Atoi

    Base 10, an optional sign, at least one digit, nothing else, and the
    result has to fit Go's 64-bit [int]. *)

Module strconv.

Definition digit (c : ascii) : option Z :=
  let n := (Z.of_N (N_of_ascii c) - 48)%Z in
  if ((0 <=? n) && (n <=? 9))%Z then Some n else None.

Fixpoint digits (acc : Z) (s : string) : option Z :=
  match s with
  | EmptyString => Some acc
  | String c s' =>
      match digit c with
      | Some n => digits (acc * 10 + n)%Z s'
      | None => None
      end
  end.

Definition in_int (n : Z) : bool := ((- 2 ^ 63 <=? n) && (n <=? 2 ^ 63 - 1))%Z.

Definition unsigned (neg : bool) (s : string) : option Z :=
  match s with
  | EmptyString => None
  | _ =>
      match digits 0 s with
      | Some n =>
          let v := if neg then (- n)%Z else n in
          if in_int v then Some v else None
      | None => None
      end
  end.

Definition Atoi (s : string) : option Z :=
  match s with
  | String "-"%char s' => unsigned true s'
  | String "+"%char s' => unsigned false s'
  | _ => unsigned false s
  end.

End strconv.

(** ** Configuration group *)

Module DbConfigGroup.

Record datastore_block : Type := mkDatastore { version : string; type_ : string }.
Record configuration_block : Type := mkConfiguration {
  cfg_name : string; cfg_value : string }.

Record ResourceData : Type := mkData {
  Id : string;
  region : string; name : string; description : string;
  datastore : list datastore_block;
  configuration : list configuration_block;
  TimeoutCreate : nat; TimeoutDelete : nat }.

Definition SetId (id : string) (d : ResourceData) : ResourceData :=
  mkData id (region d) (name d) (description d) (datastore d) (configuration d)
         (TimeoutCreate d) (TimeoutDelete d).

(** the three [d.Set] of [resourceDbConfigGroupRead] *)
Definition Set_attrs (cgroup : configurations.Config.t) (rgn : string)
    (d : ResourceData) : ResourceData :=
  mkData (Id d) rgn (configurations.Config.Name cgroup)
         (configurations.Config.Description cgroup)
         (datastore d) (configuration d) (TimeoutCreate d) (TimeoutDelete d).

(** The state that stands for an absent group: the earlier revision
    writes it in lower case, the later one in upper case, each both in the
    probe and in the target of the delete poll. *)
Definition absent (rev : revision) : string :=
  match rev with
  | openstack_dir => "deleted"
  | unnamed_part => "DELETED"
  end.

(** the [value] that the loop of the later revision stores for a declared string *)
Definition coerce (s : string) : value :=
  match strconv.Atoi s with
  | Some valueInt => VInt valueInt
  | None => VString s
  end.

(** [createOpts.Values]: the earlier revision sends element [0] of the
    declared list as it is, the later one every element, coerced. *)
Definition values (rev : revision) (configuration : list configuration_block)
  : gmap string value :=
  match rev with
  | openstack_dir =>
      match configuration with
      | pV :: _ => {[ cfg_name pV := VString (cfg_value pV) ]}
      | [] => ∅
      end
  | unnamed_part =>
      foldl (λ values z, <[ cfg_name z := coerce (cfg_value z) ]> values)
            ∅ configuration
  end.

Definition createOpts (rev : revision) (d : ResourceData)
  : configurations.CreateOpts.t :=
  let datastore :=
    match datastore d with
    | pV :: _ => configurations.DatastoreOpts.mk (version pV) (type_ pV)
    | [] => configurations.DatastoreOpts.zero
    end in
  configurations.CreateOpts.mk (name d) (description d) datastore
                               (values rev (configuration d)).

Section Adapter.
Context {R : Type} `{!OpenStack R}.

(** The earlier revision carries its own [Create], [baseURL],
    [ExtractInto] and [Extract] next to the adapter. *)
Definition baseURL (c : ServiceClient) : string := ServiceURL c "configurations".

Definition Create (client : ServiceClient) (opts : configurations.CreateOpts.t)
  : Remote R (Result JSON) :=
  match ToConfigCreateMap opts with
  | inl err => ret (mkResult None (Some err))
  | inr b =>
      call (body, err) <- Post client (baseURL client) b [200%Z];
      ret (mkResult body err)
  end.

Definition ExtractInto (r : Result JSON) : error + configurations.Config.t :=
  match Err r with
  | Some err => inl err
  | None => json_Decode_configuration (Body r)
  end.

Definition Extract (r : Result JSON) : error + configurations.Config.t :=
  ExtractInto r.

(** [Create(..)] of the earlier revision, [configurations.Create(..)] of
    the later one *)
Definition create_call (rev : revision) (client : ServiceClient)
    (opts : configurations.CreateOpts.t) : Remote R (Result JSON) :=
  match rev with
  | openstack_dir => Create client opts
  | unnamed_part => configurations_Create client opts
  end.

Definition DbConfigGroupStateRefreshFunc (rev : revision)
    (client : ServiceClient) (cgroupID : string)
  : Remote R (resource.Probe configurations.Config.t) :=
  call r <- configurations_Get client cgroupID;
  match Extract r with
  | inl err =>
      if is_ErrDefault404 err then ret (resource.mkProbe None (absent rev) None)
      else ret (resource.mkProbe None "" (Some err))
  | inr i => ret (resource.mkProbe (Some i) "ACTIVE" None)
  end.

Definition resourceDbConfigGroupRead (d : ResourceData) (meta : Config)
  : Remote R (option error * ResourceData) :=
  match databaseInstanceClient meta (GetRegion (region d) meta) with
  | inl err =>
      ret (Some (errorString
             ("Error creating OpenStack cloud database client: " +:+ Error err)), d)
  | inr databaseInstanceClient =>
      call r <- configurations_Get databaseInstanceClient (Id d);
      match Extract r with
      | inl err => ret (CheckDeleted SetId d err "configuration")
      | inr cgroup =>
          ret (None, Set_attrs cgroup (GetRegion (region d) meta) d)
      end
  end.

Definition resourceDbConfigGroupCreate (rev : revision)
    (d : ResourceData) (meta : Config)
  : Remote R (option error * ResourceData) :=
  match databaseInstanceClient meta (GetRegion (region d) meta) with
  | inl err =>
      ret (Some (errorString
             ("Error creating cloud database client: " +:+ Error err)), d)
  | inr databaseInstanceClient =>
      call r <- create_call rev databaseInstanceClient (createOpts rev d);
      match Extract r with
      | inl err =>
          ret (Some (errorString
                 ("Error creating cloud database configuration: "
                  +:+ Error err)), d)
      | inr cgroup =>
          let stateConf :=
            resource.mkStateChangeConf R _
              ["BUILD"] ["ACTIVE"]
              (DbConfigGroupStateRefreshFunc rev databaseInstanceClient
                 (configurations.Config.ID cgroup))
              (TimeoutCreate d) 10 3 in
          call (_, err) <- resource.WaitForState stateConf;
          match err with
          | Some err =>
              ret (Some (errorString
                     ("Error waiting for configuration ("
                      +:+ configurations.Config.ID cgroup
                      +:+ ") to become ready: " +:+ Error err)), d)
          | None =>
              let d := SetId (configurations.Config.ID cgroup) d in
              resourceDbConfigGroupRead d meta
          end
      end
  end.

Definition resourceDbConfigGroupDelete (rev : revision)
    (d : ResourceData) (meta : Config)
  : Remote R (option error * ResourceData) :=
  match databaseInstanceClient meta (GetRegion (region d) meta) with
  | inl err =>
      ret (Some (errorString
             ("Error creating RS cloud instance client: " +:+ Error err)), d)
  | inr databaseInstanceClient =>
      call err <- configurations_Delete databaseInstanceClient (Id d);
      match err with
      | Some err =>
          ret (Some (errorString
                 ("Error deleting cloud configuration: " +:+ Error err)), d)
      | None =>
          let stateConf :=
            resource.mkStateChangeConf R _
              ["ACTIVE"; "SHUTOFF"] [absent rev]
              (DbConfigGroupStateRefreshFunc rev databaseInstanceClient (Id d))
              (TimeoutDelete d) 10 3 in
          call (_, err) <- resource.WaitForState stateConf;
          match err with
          | Some err =>
              ret (Some (errorString
                     ("Error waiting for configuration (" +:+ Id d
                      +:+ ") to delete: " +:+ Error err)), d)
          | None => ret (None, SetId "" d)
          end
      end
  end.

End Adapter.
End DbConfigGroup.

(** ** A scripted remote

    A remote system that answers from a script: each listing and each fetch
    takes the next answer of its script (an empty listing, respectively a
    404, once the script is used up), and every create and delete request is
    answered the same way.  Response bodies are JSON objects with string
    members. *)

Module Scripted.

Definition json : Type := gmap string string.

Record World : Type := mkWorld {
  create_reply : option error;
  delete_reply : option error;
  new_id : string;
  db_listings : list (list databases.Database.t);
  user_listings : list (list users.User.t);
  instance_replies : list (error + instances.Instance.t);
  config_replies : list (Result json) }.

Definition not_found : error := ErrDefault404 "Resource not found".

Definition list_dbs : Remote World (list databases.Database.t * option error) :=
  λ w, match db_listings w with
       | l :: rest =>
           ((l, None),
            mkWorld (create_reply w) (delete_reply w) (new_id w) rest
                    (user_listings w) (instance_replies w) (config_replies w))
       | [] => (([], None), w)
       end.

Definition list_users : Remote World (list users.User.t * option error) :=
  λ w, match user_listings w with
       | l :: rest =>
           ((l, None),
            mkWorld (create_reply w) (delete_reply w) (new_id w) (db_listings w)
                    rest (instance_replies w) (config_replies w))
       | [] => (([], None), w)
       end.

Definition get_instance : Remote World (error + instances.Instance.t) :=
  λ w, match instance_replies w with
       | r :: rest =>
           (r,
            mkWorld (create_reply w) (delete_reply w) (new_id w) (db_listings w)
                    (user_listings w) rest (config_replies w))
       | [] => (inl not_found, w)
       end.

Definition get_config : Remote World (Result json) :=
  λ w, match config_replies w with
       | r :: rest =>
           (r,
            mkWorld (create_reply w) (delete_reply w) (new_id w) (db_listings w)
                    (user_listings w) (instance_replies w) rest)
       | [] => (mkResult None (Some not_found), w)
       end.

Definition create_instance (opts : instances.CreateOpts.t)
  : Remote World (error + instances.Instance.t) :=
  λ w, match create_reply w with
       | Some err => (inl err, w)
       | None =>
           (inr (instances.Instance.mk (new_id w) (instances.CreateOpts.Name opts)
                   "BUILD" (instances.CreateOpts.FlavorRef opts)
                   (instances.CreateOpts.Datastore opts)), w)
       end.

Definition encode (opts : configurations.CreateOpts.t) : json :=
  {[ "name" := configurations.CreateOpts.Name opts;
     "description" := configurations.CreateOpts.Description opts ]}.

Definition decode (body : option json) : error + configurations.Config.t :=
  match body with
  | None => inl (errorString "EOF")
  | Some j =>
      inr (configurations.Config.mk
             (j !!! "created") (j !!! "updated") (j !!! "datastore_name")
             (j !!! "datastore_version_id") (j !!! "datastore_version_name")
             (j !!! "description") (j !!! "id") (j !!! "name") ∅)
  end.

Definition post (b : json) : Remote World (option json * option error) :=
  λ w, match create_reply w with
       | Some err => ((None, Some err), w)
       | None => ((Some (<[ "id" := new_id w ]> b), None), w)
       end.

Definition create_config (opts : configurations.CreateOpts.t)
  : Remote World (Result json) :=
  call (body, err) <- post (encode opts); ret (mkResult body err).

#[global] Instance cloud : OpenStack World := {
  Config := unit;
  ServiceClient := unit;
  GetRegion := λ rgn _, rgn;
  databaseInstanceClient := λ _ _, inr tt;
  DBPage := list databases.Database.t;
  databases_Create := λ _ _ _ w, (create_reply w, w);
  databases_List_AllPages := λ _ _, list_dbs;
  databases_ExtractDBs := λ page, (page, None);
  databases_Delete := λ _ _ _ w, (delete_reply w, w);
  UserPage := list users.User.t;
  users_Create := λ _ _ _ w, (create_reply w, w);
  users_List_AllPages := λ _ _, list_users;
  users_ExtractUsers := λ page, (page, None);
  users_Delete := λ _ _ _ w, (delete_reply w, w);
  instances_Create := λ _, create_instance;
  instances_Get := λ _ _, get_instance;
  instances_Delete := λ _ _ w, (delete_reply w, w);
  JSON := json;
  configurations_Create := λ _, create_config;
  configurations_Get := λ _ _, get_config;
  configurations_Delete := λ _ _ w, (delete_reply w, w);
  json_Decode_configuration := decode;
  ToConfigCreateMap := λ opts, inr (encode opts);
  ServiceURL := λ _ path, "https://trove.example/v1.0/" +:+ path;
  Post := λ _ _ b _, post b }.

(** a remote that accepts every request and has nothing to list *)
Definition quiet : World := mkWorld None None "" [] [] [] [].

End Scripted.

(** ** Declared resources and remotes of the scenarios *)

Module Scenario.
Import Scripted.

(** the probes that fit the default window of ten minutes after the first
    one: one after [Delay], then one every [MinTimeout] *)
Definition ten_minutes : nat := 197.

Definition app : databases.Database.t :=
  databases.Database.mk "app" "utf8" "utf8_general_ci".

(** database "app" declared on instance "I1" *)
Definition app_declared : Database.ResourceData :=
  Database.mkData "" "RegionOne" "app" "I1" "utf8" "utf8_general_ci"
                  ten_minutes ten_minutes.

(** the listing of "I1" is empty at first and holds "app" from then on *)
Definition app_shows_up_second : World :=
  mkWorld None None "" [[]; [app]] [] [] [].

Definition app_listed : World := mkWorld None None "" [[app]] [] [] [].

Definition bob : users.User.t := users.User.mk "bob" "x" [app].

Definition bob_declared : DbUser.ResourceData :=
  DbUser.mkData "" "RegionOne" "bob" "I1" "x" "%" ["app"] ten_minutes ten_minutes.

Definition bob_shows_up_second : World :=
  mkWorld None None "" [] [[]; [bob]] [] [].

Definition bob_listed : World := mkWorld None None "" [] [[bob]] [] [].

(** "app" as the orchestration engine holds it once it is created *)
Definition app_adopted : Database.ResourceData := Database.SetId "I1" app_declared.

(** a second database declared on the same instance *)
Definition logs : databases.Database.t := databases.Database.mk "logs" "" "".

Definition logs_declared : Database.ResourceData :=
  Database.mkData "" "RegionOne" "logs" "I1" "" "" ten_minutes ten_minutes.

Definition both_listed : World := mkWorld None None "" [[app; logs]; [app; logs]] [] [] [].

Definition conflict : error := ErrRemote "Expected HTTP response code [202], got 409".
Definition server_error : error := ErrRemote "Expected HTTP response code [202], got 500".

(** the create request is rejected; "app" is in the listing all the same *)
Definition app_create_rejected : World :=
  mkWorld (Some conflict) None "" [[app]; [app]] [] [] [].

(** the create request is rejected and "app" is not in the listing *)
Definition app_create_rejected_unlisted : World :=
  mkWorld (Some conflict) None "" [[]] [] [] [].

(** the delete request is rejected and "app" stays in the listing *)
Definition app_delete_rejected : World :=
  mkWorld None (Some server_error) "" [[app]; [app]] [] [] [].

(** "app" has been dropped out-of-band: the listing of "I1" is empty *)
Definition app_gone : World := mkWorld None None "" [[]] [] [] [].

(** the same three situations for user "bob" *)
Definition bob_adopted : DbUser.ResourceData := DbUser.SetId "I1" bob_declared.

Definition bob_create_rejected : World :=
  mkWorld (Some conflict) None "" [] [[bob]; [bob]] [] [].

Definition bob_delete_rejected : World :=
  mkWorld None (Some server_error) "" [] [[bob]; [bob]] [] [].

Definition bob_gone : World := mkWorld None None "" [] [[]] [] [].

(** a configuration group with one integer-looking and one textual value *)
Definition cg_declared : DbConfigGroup.ResourceData :=
  DbConfigGroup.mkData "" "RegionOne" "cg" "tuning"
    [DbConfigGroup.mkDatastore "5.6" "mysql"]
    [DbConfigGroup.mkConfiguration "max_connections" "5";
     DbConfigGroup.mkConfiguration "collation_server" "latin1_swedish_ci"]
    ten_minutes ten_minutes.

Definition cg_adopted : DbConfigGroup.ResourceData :=
  DbConfigGroup.SetId "C1" cg_declared.

(** group "C1" is already absent: a fetch and a delete request both get 404 *)
Definition cg_absent : World := mkWorld None (Some not_found) "" [] [] [] [].


(** the body of a fetch of "C1" that carries a status member "ERROR" *)
Definition cg_body_error : json :=
  {[ "id" := "C1"; "name" := "cg"; "description" := "tuning"; "status" := "ERROR" ]}.

Definition cg_fetched : configurations.Config.t :=
  configurations.Config.mk "" "" "" "" "" "tuning" "C1" "cg" ∅.

(** the remote creates "C1" and reports it with status "ERROR" ever after *)
Definition cg_in_error : World :=
  mkWorld None None "C1" [] [] []
          [mkResult (Some cg_body_error) None; mkResult (Some cg_body_error) None].

Definition cg_in_error_after_one_fetch : World :=
  mkWorld None None "C1" [] [] [] [mkResult (Some cg_body_error) None].

(** an instance declared with two networks, two databases and two users *)
Definition net1 : DbInstance.network_block := DbInstance.mkNetwork "net-1" "" "" "".
Definition net2 : DbInstance.network_block := DbInstance.mkNetwork "net-2" "" "" "".

Definition instance_declared : DbInstance.ResourceData :=
  DbInstance.mkData "" "RegionOne" "basic" "m1.small" 2
    [DbInstance.mkDatastore "5.6" "mysql"]
    [net1; net2]
    [DbInstance.mkDatabase "app" "utf8" ""; DbInstance.mkDatabase "logs" "" ""]
    [DbInstance.mkUser "bob" "x" "%" ["app"]; DbInstance.mkUser "eve" "y" "%" ["logs"]]
    ten_minutes ten_minutes.

Definition instance_adopted : DbInstance.ResourceData :=
  DbInstance.SetId "I1" instance_declared.

Definition I1 (status : string) : instances.Instance.t :=
  instances.Instance.mk "I1" "basic" status "m1.small"
                        (instances.DatastoreOpts.mk "5.6" "mysql").

(** the remote creates "I1", which is BUILD for two probes and then ACTIVE *)
Definition instance_builds : World :=
  mkWorld None None "I1" [] []
          [inr (I1 "BUILD"); inr (I1 "BUILD"); inr (I1 "ACTIVE"); inr (I1 "ACTIVE")] [].

(** the remote creates "I1", which turns out in status "ERROR" *)
Definition instance_fails : World :=
  mkWorld None None "I1" [] [] [inr (I1 "ERROR"); inr (I1 "ERROR")] [].


End Scenario.

(** ** The acceptance check of the instance test

    What the check reads of the engine's state: the resources of the root
    module by name, and of each its primary identifier. *)

Module terraform.
Record InstanceState : Type := mkInstanceState { ID : string }.
Record ResourceState : Type := mkResourceState { Primary : InstanceState }.
End terraform.

Module AccTest.

Section Check.
Context {R : Type} `{!OpenStack R}.

(** [s] is [s.RootModule().Resources], [meta] is [testAccProvider.Meta()],
    and the instance that the check fills in is handed back with the error. *)
Definition testAccCheckDatabaseInstanceExists (n : string)
    (instance : instances.Instance.t) (meta : Config) (OS_REGION_NAME : string)
    (s : gmap string terraform.ResourceState)
  : Remote R (option error * instances.Instance.t) :=
  match s !! n with
  | None => ret (Some (errorString ("Not found: " +:+ n)), instance)
  | Some rs =>
      if bool_decide (terraform.ID (terraform.Primary rs) = "") then
        ret (Some (errorString "No ID is set"), instance)
      else
        match databaseInstanceClient meta OS_REGION_NAME with
        | inl err =>
            ret (Some (errorString
                   ("Error creating OpenStack compute client: " +:+ Error err)),
                 instance)
        | inr databaseInstanceClient =>
            call r <- instances_Get databaseInstanceClient
                        (terraform.ID (terraform.Primary rs));
            match r with
            | inl err => ret (Some err, instance)
            | inr found =>
                if bool_decide (instances.Instance.ID found
                                ≠ terraform.ID (terraform.Primary rs)) then
                  ret (Some (errorString "Instance not found"), instance)
                else ret (None, found)
            end
        end
  end.

End Check.
End AccTest.

(** ** A provider that cannot build a client

    The scripted remote behind a configuration whose
    [databaseInstanceClient] fails. *)

Module Offline.
Import Scripted.

Definition no_endpoint : error :=
  ErrRemote "No suitable endpoint could be found in the service catalog.".

Definition cloud : OpenStack World := {|
  Config := unit;
  ServiceClient := unit;
  GetRegion := λ rgn _, rgn;
  databaseInstanceClient := λ _ _, inl no_endpoint;
  DBPage := list databases.Database.t;
  databases_Create := λ _ _ _ w, (create_reply w, w);
  databases_List_AllPages := λ _ _, list_dbs;
  databases_ExtractDBs := λ page, (page, None);
  databases_Delete := λ _ _ _ w, (delete_reply w, w);
  UserPage := list users.User.t;
  users_Create := λ _ _ _ w, (create_reply w, w);
  users_List_AllPages := λ _ _, list_users;
  users_ExtractUsers := λ page, (page, None);
  users_Delete := λ _ _ _ w, (delete_reply w, w);
  instances_Create := λ _, create_instance;
  instances_Get := λ _ _, get_instance;
  instances_Delete := λ _ _ w, (delete_reply w, w);
  JSON := json;
  configurations_Create := λ _, create_config;
  configurations_Get := λ _ _, get_config;
  configurations_Delete := λ _ _ w, (delete_reply w, w);
  json_Decode_configuration := decode;
  ToConfigCreateMap := λ opts, inr (encode opts);
  ServiceURL := λ _ path, "https://trove.example/v1.0/" +:+ path;
  Post := λ _ _ b _, post b |}.

(** the scripted remote with a request encoder that rejects every request *)
Definition unencodable : error := errorString "Missing input for argument [Name]".

Definition strict : OpenStack World := {|
  Config := unit;
  ServiceClient := unit;
  GetRegion := λ rgn _, rgn;
  databaseInstanceClient := λ _ _, inr tt;
  DBPage := list databases.Database.t;
  databases_Create := λ _ _ _ w, (create_reply w, w);
  databases_List_AllPages := λ _ _, list_dbs;
  databases_ExtractDBs := λ page, (page, None);
  databases_Delete := λ _ _ _ w, (delete_reply w, w);
  UserPage := list users.User.t;
  users_Create := λ _ _ _ w, (create_reply w, w);
  users_List_AllPages := λ _ _, list_users;
  users_ExtractUsers := λ page, (page, None);
  users_Delete := λ _ _ _ w, (delete_reply w, w);
  instances_Create := λ _, create_instance;
  instances_Get := λ _ _, get_instance;
  instances_Delete := λ _ _ w, (delete_reply w, w);
  JSON := json;
  configurations_Create := λ _, create_config;
  configurations_Get := λ _ _, get_config;
  configurations_Delete := λ _ _ w, (delete_reply w, w);
  json_Decode_configuration := decode;
  ToConfigCreateMap := λ _, inl unencodable;
  ServiceURL := λ _ path, "https://trove.example/v1.0/" +:+ path;
  Post := λ _ _ b _, post b |}.

End Offline.

Module MoreScenarios.
Import Scripted.

(** the engine's state once instance "basic" is adopted as "I1" *)
Definition state_with_basic : gmap string terraform.ResourceState :=
  {[ "openstack_db_instance.basic"
     := terraform.mkResourceState (terraform.mkInstanceState "I1") ]}.

(** "I1" is ACTIVE whenever it is fetched (three fetches scripted) *)
Definition instance_active : World :=
  mkWorld None None "I1" [] []
          [inr (Scenario.I1 "ACTIVE"); inr (Scenario.I1 "ACTIVE");
           inr (Scenario.I1 "ACTIVE")] [].

(** "I1" is ACTIVE for one more fetch and gone after it *)
Definition instance_going : World :=
  mkWorld None None "I1" [] [] [inr (Scenario.I1 "ACTIVE")] [].

(** "app" is listed on each of two listings *)
Definition app_listed_twice : World :=
  mkWorld None None "" [[Scenario.app]; [Scenario.app]] [] [] [].

(** group "C1" is fetched once more and gone after it *)
Definition cg_going : World :=
  mkWorld None None "C1" [] [] []
          [mkResult (Some Scenario.cg_body_error) None].


End MoreScenarios.

(** * Properties *)

(** ** The poll primitive, one probe at a time *)

Section PollFacts.
Context {R A : Type} (conf : resource.StateChangeConf R A).

Lemma poll_probe_error (retries : nat) (w w1 : R) (p : resource.Probe A) (err : error) :
  resource.Refresh conf w = (p, w1) →
  resource.Err p = Some err →
  resource.poll conf retries w = (("", Some err), w1).
Proof.
  intros Hp He. destruct retries; simpl; rewrite Hp, He; reflexivity.
Qed.

Lemma poll_target (retries : nat) (w w1 : R) (p : resource.Probe A) :
  resource.Refresh conf w = (p, w1) →
  resource.Err p = None →
  resource.State p ∈ resource.Target conf →
  resource.poll conf retries w = ((resource.State p, None), w1).
Proof.
  intros Hp He Ht. unfold resource.poll; destruct retries;
    rewrite Hp, He; unfold resource.contains;
    rewrite bool_decide_eq_true_2 by assumption; reflexivity.
Qed.

Lemma poll_unexpected (retries : nat) (w w1 : R) (p : resource.Probe A) :
  resource.Refresh conf w = (p, w1) →
  resource.Err p = None →
  resource.State p ∉ resource.Target conf →
  resource.State p ∉ resource.Pending conf →
  resource.poll conf retries w
  = (("", Some (UnexpectedStateError (resource.State p) (resource.Target conf))), w1).
Proof.
  intros Hp He Ht Hq. unfold resource.poll; destruct retries;
    rewrite Hp, He; unfold resource.contains;
    rewrite !bool_decide_eq_false_2 by assumption; reflexivity.
Qed.

Lemma poll_pending (retries : nat) (w w1 : R) (p : resource.Probe A) :
  resource.Refresh conf w = (p, w1) →
  resource.Err p = None →
  resource.State p ∉ resource.Target conf →
  resource.State p ∈ resource.Pending conf →
  resource.poll conf (S retries) w = resource.poll conf retries w1.
Proof.
  intros Hp He Ht Hq. simpl. rewrite Hp, He. unfold resource.contains.
  rewrite bool_decide_eq_false_2 by assumption.
  rewrite bool_decide_eq_true_2 by assumption. reflexivity.
Qed.

Lemma poll_window_exhausted (w w1 : R) (p : resource.Probe A) :
  resource.Refresh conf w = (p, w1) →
  resource.Err p = None →
  resource.State p ∉ resource.Target conf →
  resource.State p ∈ resource.Pending conf →
  resource.poll conf 0 w = (("", Some (TimeoutError (resource.State p))), w1).
Proof.
  intros Hp He Ht Hq. simpl. rewrite Hp, He. unfold resource.contains.
  rewrite bool_decide_eq_false_2 by assumption.
  rewrite bool_decide_eq_true_2 by assumption. reflexivity.
Qed.

End PollFacts.

Lemma not_listed (s : string) (l : list string) :
  resource.contains l s = false → s ∉ l.
Proof. unfold resource.contains. apply bool_decide_eq_false. Qed.

(** ** Child-scan probes (database, user) *)

Section ChildScan.
Context {R : Type} `{!OpenStack R}.

Lemma database_probe_miss (client : ServiceClient) (instance_id dbname : string)
    (w w1 : R) (pages : DBPage) (dbs : list databases.Database.t) :
  databases_List_AllPages client instance_id w = ((pages, None), w1) →
  databases_ExtractDBs pages = (dbs, None) →
  List.find (Database.named dbname) dbs = None →
  Database.DatabaseStateRefreshFunc client instance_id dbname w
  = (resource.mkProbe None ""
       (Some (errorString ("Error retrieving database " +:+ dbname +:+ " status"))),
     w1).
Proof.
  intros Hl He Hf. unfold Database.DatabaseStateRefreshFunc, bind.
  rewrite Hl, He, Hf. reflexivity.
Qed.

Lemma database_probe_hit (client : ServiceClient) (instance_id dbname : string)
    (w w1 : R) (pages : DBPage) (dbs : list databases.Database.t)
    (v : databases.Database.t) :
  databases_List_AllPages client instance_id w = ((pages, None), w1) →
  databases_ExtractDBs pages = (dbs, None) →
  List.find (Database.named dbname) dbs = Some v →
  Database.DatabaseStateRefreshFunc client instance_id dbname w
  = (resource.mkProbe (Some v) "ACTIVE" None, w1).
Proof.
  intros Hl He Hf. unfold Database.DatabaseStateRefreshFunc, bind.
  rewrite Hl, He, Hf. reflexivity.
Qed.

Lemma user_probe_miss (client : ServiceClient) (instance_id username : string)
    (w w1 : R) (pages : UserPage) (us : list users.User.t) :
  users_List_AllPages client instance_id w = ((pages, None), w1) →
  users_ExtractUsers pages = (us, None) →
  List.find (DbUser.named username) us = None →
  DbUser.DbUserStateRefreshFunc client instance_id username w
  = (resource.mkProbe None ""
       (Some (errorString ("Error retrieving user " +:+ username +:+ " status"))),
     w1).
Proof.
  intros Hl He Hf. unfold DbUser.DbUserStateRefreshFunc, bind.
  rewrite Hl, He, Hf. reflexivity.
Qed.

Lemma user_probe_hit (client : ServiceClient) (instance_id username : string)
    (w w1 : R) (pages : UserPage) (us : list users.User.t) (v : users.User.t) :
  users_List_AllPages client instance_id w = ((pages, None), w1) →
  users_ExtractUsers pages = (us, None) →
  List.find (DbUser.named username) us = Some v →
  DbUser.DbUserStateRefreshFunc client instance_id username w
  = (resource.mkProbe (Some v) "ACTIVE" None, w1).
Proof.
  intros Hl He Hf. unfold DbUser.DbUserStateRefreshFunc, bind.
  rewrite Hl, He, Hf. reflexivity.
Qed.

End ChildScan.

Section ChildScanPoll.
Context {R : Type} `{!OpenStack R}.

(** C1 (as amended): a poll tick whose listing does not hold the declared
    name ends the poll on that very tick, with the probe's own error
    "Error retrieving database <name> status" (for a user, "Error retrieving
    user <name> status"), whatever the poll window and whatever a later
    listing would show; a first listing that holds the name ends the poll
    with success on that first tick.  In both cases the remote is left as it
    is after exactly one listing. *)
Theorem child_scan_poll_is_decided_by_first_listing
    (client : ServiceClient) (instance_id child : string)
    (pending target : list string) (window : nat) (delay interval : Z) (w : R) :
  (∀ (w1 : R) (pages : DBPage) (dbs : list databases.Database.t),
     databases_List_AllPages client instance_id w = ((pages, None), w1) →
     databases_ExtractDBs pages = (dbs, None) →
     let conf :=
       resource.mkStateChangeConf R _ pending target
         (Database.DatabaseStateRefreshFunc client instance_id child)
         window delay interval in
     (List.find (Database.named child) dbs = None →
      resource.WaitForState conf w
      = (("", Some (errorString
                        ("Error retrieving database " +:+ child +:+ " status"))), w1))
     ∧ (∀ v, List.find (Database.named child) dbs = Some v →
             "ACTIVE" ∈ target →
             resource.WaitForState conf w = (("ACTIVE", None), w1)))
  ∧
  (∀ (w1 : R) (pages : UserPage) (us : list users.User.t),
     users_List_AllPages client instance_id w = ((pages, None), w1) →
     users_ExtractUsers pages = (us, None) →
     let conf :=
       resource.mkStateChangeConf R _ pending target
         (DbUser.DbUserStateRefreshFunc client instance_id child)
         window delay interval in
     (List.find (DbUser.named child) us = None →
      resource.WaitForState conf w
      = (("", Some (errorString
                        ("Error retrieving user " +:+ child +:+ " status"))), w1))
     ∧ (∀ v, List.find (DbUser.named child) us = Some v →
             "ACTIVE" ∈ target →
             resource.WaitForState conf w = (("ACTIVE", None), w1))).
Proof.
  split; intros w1 pages l Hl He conf; split.
  - intros Hf. unfold resource.WaitForState.
    eapply poll_probe_error; [ eapply database_probe_miss; eassumption | reflexivity ].
  - intros v Hf Ht. unfold resource.WaitForState.
    apply (poll_target conf _ w w1 (resource.mkProbe (Some v) "ACTIVE" None));
      [ eapply database_probe_hit; eassumption | reflexivity | exact Ht ].
  - intros Hf. unfold resource.WaitForState.
    eapply poll_probe_error; [ eapply user_probe_miss; eassumption | reflexivity ].
  - intros v Hf Ht. unfold resource.WaitForState.
    apply (poll_target conf _ w w1 (resource.mkProbe (Some v) "ACTIVE" None));
      [ eapply user_probe_hit; eassumption | reflexivity | exact Ht ].
Qed.

End ChildScanPoll.

(** The amended C1 at the scenario of the claim: database "app" (user
    "bob") on "I1", listed from the second listing on. *)
Lemma child_scan_poll_is_decided_by_first_listing_witness :
  (resource.WaitForState
     (resource.mkStateChangeConf Scripted.World _ ["BUILD"] ["ACTIVE"]
        (Database.DatabaseStateRefreshFunc tt "I1" "app") Scenario.ten_minutes 10 3)
     Scenario.app_shows_up_second
   = (("", Some (errorString "Error retrieving database app status")),
      Scenario.app_listed))
  ∧
  (resource.WaitForState
     (resource.mkStateChangeConf Scripted.World _ ["BUILD"] ["ACTIVE"]
        (DbUser.DbUserStateRefreshFunc tt "I1" "bob") Scenario.ten_minutes 10 3)
     Scenario.bob_listed
   = (("ACTIVE", None), Scripted.quiet)).
Proof.
  split.
  - refine (proj1 (proj1 (child_scan_poll_is_decided_by_first_listing
                     (R := Scripted.World) tt "I1" "app" ["BUILD"] ["ACTIVE"]
                     Scenario.ten_minutes 10 3 Scenario.app_shows_up_second)
                   Scenario.app_listed [] [] _ _) _); reflexivity.
  - refine (proj2 (proj2 (child_scan_poll_is_decided_by_first_listing
                     (R := Scripted.World) tt "I1" "bob" ["BUILD"] ["ACTIVE"]
                     Scenario.ten_minutes 10 3 Scenario.bob_listed)
                   Scripted.quiet [Scenario.bob] [Scenario.bob] _ _)
              Scenario.bob _ _); [ reflexivity | reflexivity | reflexivity | ].
    apply list_elem_of_here.
Defined.

(** C1 as stated fails: with the listings [[]] then [[app]] the create poll
    of database "app" does not reach a second probe; it ends on the first
    one with the child-not-found error, the second listing still unread,
    and [resourceDatabaseCreate] fails without adopting the object. *)
Lemma child_scan_poll_aborts_on_first_miss :
  resource.WaitForState
    (resource.mkStateChangeConf Scripted.World _ ["BUILD"] ["ACTIVE"]
       (Database.DatabaseStateRefreshFunc tt "I1" "app") Scenario.ten_minutes 10 3)
    Scenario.app_shows_up_second
  = (("", Some (errorString "Error retrieving database app status")),
     Scenario.app_listed)
  ∧ Database.resourceDatabaseCreate Scenario.app_declared tt
      Scenario.app_shows_up_second
    = ((Some (errorString
          "Error waiting for database (Error retrieving database app status) to become ready"),
        Scenario.app_declared),
       Scenario.app_listed).
Proof. split; reflexivity. Qed.

(** ** Create requests that the remote rejects *)

Section CreateRejected.
Context {R : Type} `{!OpenStack R}.

(** Instance (both revisions): the error of the create call comes back
    inside a [fmt.Errorf] message, nothing is polled and nothing adopted. *)
Lemma instance_create_rejection_is_returned (rev : revision)
    (d : DbInstance.ResourceData) (meta : Config) (client : ServiceClient)
    (w w1 : R) (err : error) :
  databaseInstanceClient meta (GetRegion (DbInstance.region d) meta) = inr client →
  instances_Create client (DbInstance.createOpts rev d) w = (inl err, w1) →
  DbInstance.resourceDatabaseInstanceCreate rev d meta w
  = ((Some (errorString ("Error creating cloud database instance: " +:+ Error err)), d),
     w1).
Proof.
  intros Hc Hr. unfold DbInstance.resourceDatabaseInstanceCreate, bind.
  rewrite Hc, Hr. reflexivity.
Qed.

(** Configuration group (both revisions): likewise. *)
Lemma config_group_create_rejection_is_returned (rev : revision)
    (d : DbConfigGroup.ResourceData) (meta : Config) (client : ServiceClient)
    (w w1 : R) (r : Result JSON) (err : error) :
  databaseInstanceClient meta (GetRegion (DbConfigGroup.region d) meta) = inr client →
  DbConfigGroup.create_call rev client (DbConfigGroup.createOpts rev d) w = (r, w1) →
  Err r = Some err →
  DbConfigGroup.resourceDbConfigGroupCreate rev d meta w
  = ((Some (errorString
              ("Error creating cloud database configuration: " +:+ Error err)), d),
     w1).
Proof.
  intros Hc Hr He. unfold DbConfigGroup.resourceDbConfigGroupCreate, bind.
  rewrite Hc, Hr. unfold DbConfigGroup.Extract, DbConfigGroup.ExtractInto.
  rewrite He. reflexivity.
Qed.

(** Database and user: what the create call answers never reaches the
    result; the operation goes on from the state the call leaves. *)
Lemma database_create_goes_on_whatever_the_reply
    (d : Database.ResourceData) (meta : Config) (client : ServiceClient)
    (w w1 : R) (reply : option error) :
  databaseInstanceClient meta (GetRegion (Database.region d) meta) = inr client →
  databases_Create client (Database.instance d)
    [databases.CreateOpts.mk (Database.name d) (Database.charset d) (Database.collate d)]
    w = (reply, w1) →
  Database.resourceDatabaseCreate d meta w
  = (let '(res, w2) :=
       resource.WaitForState
         (resource.mkStateChangeConf R _ ["BUILD"] ["ACTIVE"]
            (Database.DatabaseStateRefreshFunc client (Database.instance d)
               (Database.name d))
            (Database.TimeoutCreate d) 10 3) w1 in
     match snd res with
     | Some err =>
         ((Some (errorString ("Error waiting for database (" +:+ Error err
                              +:+ ") to become ready")), d), w2)
     | None =>
         Database.resourceDatabaseRead (Database.SetId (Database.instance d) d) meta w2
     end).
Proof.
  intros Hc Hr. unfold Database.resourceDatabaseCreate, bind.
  rewrite Hc. simpl app. rewrite Hr.
  destruct (resource.WaitForState _ w1) as [[res [err|]] w2]; reflexivity.
Qed.

End CreateRejected.

(** C2 at the failing input: the remote answers the create request for
    database "app" on "I1" with a 409.  [resourceDatabaseCreate] does not
    return that error: where the listing holds "app" it reports success and
    adopts the object, and where it does not, the error it returns is the
    child-not-found error of the poll.  [resourceDbUserCreate] does the same
    for user "bob". *)
Theorem database_create_drops_the_rejection :
  databases_Create (R := Scripted.World) tt "I1"
    [databases.CreateOpts.mk "app" "utf8" "utf8_general_ci"]
    Scenario.app_create_rejected
  = (Some Scenario.conflict, Scenario.app_create_rejected)
  ∧ Database.resourceDatabaseCreate Scenario.app_declared tt
      Scenario.app_create_rejected
    = ((None, Scenario.app_adopted),
       Scripted.mkWorld (Some Scenario.conflict) None "" [] [] [] [])
  ∧ Database.resourceDatabaseCreate Scenario.app_declared tt
      Scenario.app_create_rejected_unlisted
    = ((Some (errorString
          "Error waiting for database (Error retrieving database app status) to become ready"),
        Scenario.app_declared),
       Scripted.mkWorld (Some Scenario.conflict) None "" [] [] [] [])
  ∧ DbUser.resourceDbUserCreate Scenario.bob_declared tt Scenario.bob_create_rejected
    = ((None, Scenario.bob_adopted),
       Scripted.mkWorld (Some Scenario.conflict) None "" [] [] [] []).
Proof. repeat split; reflexivity. Qed.

(** ** Delete without a poll, read without a not-found signal *)

(** C3 at the failing input: the remote rejects the delete request for
    database "app" with a 500 and goes on listing it.
    [resourceDatabaseDelete] clears the identifier and reports success after
    one listing, without any poll, and the next probe still finds "app".
    [resourceDbUserDelete] does the same for user "bob". *)
Theorem database_delete_clears_id_of_a_living_object :
  Database.resourceDatabaseDelete Scenario.app_adopted tt
    Scenario.app_delete_rejected
  = ((None, Database.SetId "" Scenario.app_adopted),
     Scripted.mkWorld None (Some Scenario.server_error) "" [[Scenario.app]] [] [] [])
  ∧ Database.Id (Database.SetId "" Scenario.app_adopted) = ""
  ∧ fst (Database.DatabaseStateRefreshFunc tt "I1" "app"
           (Scripted.mkWorld None (Some Scenario.server_error) ""
              [[Scenario.app]] [] [] []))
    = resource.mkProbe (Some Scenario.app) "ACTIVE" None
  ∧ DbUser.resourceDbUserDelete Scenario.bob_adopted tt Scenario.bob_delete_rejected
    = ((None, DbUser.SetId "" Scenario.bob_adopted),
       Scripted.mkWorld None (Some Scenario.server_error) "" [] [[Scenario.bob]] [] []).
Proof. repeat split; reflexivity. Qed.

(** C6 at the failing input: database "app" has disappeared from the
    listing of "I1".  [resourceDatabaseRead] reports success and leaves the
    identifier and every attribute as they were; so does [resourceDbUserRead]
    for user "bob". *)
Theorem database_read_keeps_a_vanished_child :
  Database.resourceDatabaseRead Scenario.app_adopted tt Scenario.app_gone
  = ((None, Scenario.app_adopted), Scripted.quiet)
  ∧ Database.Id Scenario.app_adopted = "I1"
  ∧ DbUser.resourceDbUserRead Scenario.bob_adopted tt Scenario.bob_gone
    = ((None, Scenario.bob_adopted), Scripted.quiet).
Proof. repeat split; reflexivity. Qed.

Section ReadNotFound.
Context {R : Type} `{!OpenStack R}.

(** Instance and configuration group hand a 404 of the fetch to
    [CheckDeleted]: the read succeeds with the identifier cleared. *)
Lemma instance_read_drops_a_vanished_object
    (d : DbInstance.ResourceData) (meta : Config) (client : ServiceClient)
    (w w1 : R) (msg : string) :
  databaseInstanceClient meta (GetRegion (DbInstance.region d) meta) = inr client →
  instances_Get client (DbInstance.Id d) w = (inl (ErrDefault404 msg), w1) →
  DbInstance.resourceDatabaseInstanceRead d meta w
  = ((None, DbInstance.SetId "" d), w1).
Proof.
  intros Hc Hr. unfold DbInstance.resourceDatabaseInstanceRead, bind.
  rewrite Hc, Hr. reflexivity.
Qed.

Lemma config_group_read_drops_a_vanished_object
    (d : DbConfigGroup.ResourceData) (meta : Config) (client : ServiceClient)
    (w w1 : R) (r : Result JSON) (msg : string) :
  databaseInstanceClient meta (GetRegion (DbConfigGroup.region d) meta) = inr client →
  configurations_Get client (DbConfigGroup.Id d) w = (r, w1) →
  Err r = Some (ErrDefault404 msg) →
  DbConfigGroup.resourceDbConfigGroupRead d meta w
  = ((None, DbConfigGroup.SetId "" d), w1).
Proof.
  intros Hc Hr He. unfold DbConfigGroup.resourceDbConfigGroupRead, bind.
  rewrite Hc, Hr. unfold DbConfigGroup.Extract, DbConfigGroup.ExtractInto.
  rewrite He. reflexivity.
Qed.

(** A database that is not in the decoded listing: the read succeeds and
    changes nothing, whatever the remote and the declared resource. *)
Lemma database_read_of_unlisted_child
    (d : Database.ResourceData) (meta : Config) (client : ServiceClient)
    (w w1 : R) (pages : DBPage) (dbs : list databases.Database.t) :
  databaseInstanceClient meta (GetRegion (Database.region d) meta) = inr client →
  databases_List_AllPages client (Database.Id d) w = ((pages, None), w1) →
  databases_ExtractDBs pages = (dbs, None) →
  List.find (Database.named (Database.name d)) dbs = None →
  Database.resourceDatabaseRead d meta w = ((None, d), w1).
Proof.
  intros Hc Hl He Hf. unfold Database.resourceDatabaseRead, bind.
  rewrite Hc, Hl, He, Hf. reflexivity.
Qed.

End ReadNotFound.

(** ** Delete of an object that is already absent *)

Section DeleteAbsent.
Context {R : Type} `{!OpenStack R}.




End DeleteAbsent.



(** ** Fatal and unexpected states *)

Section FatalStates.
Context {R : Type} `{!OpenStack R}.

Lemma instance_probe_status (client : ServiceClient) (id : string) (w w1 : R)
    (i : instances.Instance.t) :
  instances_Get client id w = (inr i, w1) →
  DbInstance.InstanceStateRefreshFunc client id w
  = (resource.mkProbe (Some i) (instances.Instance.Status i)
       (if bool_decide (instances.Instance.Status i = "error")
        then Some (errorString "There was an error creating the instance.")
        else None),
     w1).
Proof.
  intros Hg. unfold DbInstance.InstanceStateRefreshFunc, bind. rewrite Hg.
  case_bool_decide; reflexivity.
Qed.

Lemma config_group_probe_present (rev : revision) (client : ServiceClient)
    (id : string) (w w1 : R) (r : Result JSON) (i : configurations.Config.t) :
  configurations_Get client id w = (r, w1) →
  DbConfigGroup.Extract r = inr i →
  DbConfigGroup.DbConfigGroupStateRefreshFunc rev client id w
  = (resource.mkProbe (Some i) "ACTIVE" None, w1).
Proof.
  intros Hg He. unfold DbConfigGroup.DbConfigGroupStateRefreshFunc, bind.
  rewrite Hg, He. reflexivity.
Qed.

(** C5 (as amended): for every probe, a probe error or a probe state
    outside the pending and the target set ends the poll on that tick with
    an error.  The instance probe reports the fetched status as the state,
    and as an error when it reads "error", so an instance in "error",
    "ERROR" or any other status outside the two sets fails its poll at
    once.  The configuration-group probe does not read a status: whatever
    the fetched body carries, a successful fetch is state "ACTIVE". *)
Theorem fatal_state_ends_the_poll (client : ServiceClient) (id : string) (w w1 : R) :
  (∀ (A : Type) (conf : resource.StateChangeConf R A) (p : resource.Probe A),
     resource.Refresh conf w = (p, w1) →
     is_Some (resource.Err p)
     ∨ ((resource.State p ∉ resource.Target conf)
        ∧ (resource.State p ∉ resource.Pending conf)) →
     ∃ err, resource.WaitForState conf w = (("", Some err), w1))
  ∧ (∀ (i : instances.Instance.t) (pending target : list string)
       (window : nat) (delay interval : Z),
       instances_Get client id w = (inr i, w1) →
       instances.Instance.Status i = "error"
       ∨ ((instances.Instance.Status i ∉ target)
          ∧ (instances.Instance.Status i ∉ pending)) →
       ∃ err,
         resource.WaitForState
           (resource.mkStateChangeConf R _ pending target
              (DbInstance.InstanceStateRefreshFunc client id) window delay interval) w
         = (("", Some err), w1))
  ∧ (∀ (rev : revision) (r : Result JSON) (i : configurations.Config.t),
       configurations_Get client id w = (r, w1) →
       DbConfigGroup.Extract r = inr i →
       DbConfigGroup.DbConfigGroupStateRefreshFunc rev client id w
       = (resource.mkProbe (Some i) "ACTIVE" None, w1)).
Proof.
  assert (Hgen : ∀ (A : Type) (conf : resource.StateChangeConf R A)
                   (p : resource.Probe A),
             resource.Refresh conf w = (p, w1) →
             is_Some (resource.Err p)
             ∨ ((resource.State p ∉ resource.Target conf)
                ∧ (resource.State p ∉ resource.Pending conf)) →
             ∃ err, resource.WaitForState conf w = (("", Some err), w1)).
  { intros A conf p Hp Hcase. unfold resource.WaitForState.
    destruct (resource.Err p) as [err|] eqn:He.
    - exists err. eapply poll_probe_error; eassumption.
    - destruct Hcase as [[e Hs]|[Ht Hq]]; [ discriminate Hs | ].
      eexists. eapply poll_unexpected; eassumption. }
  split; [ exact Hgen | split ].
  - intros i pending target window delay interval Hg Hcase.
    eapply Hgen; [ simpl; eapply instance_probe_status; exact Hg | ].
    simpl. destruct Hcase as [Herr|Hout].
    + left. rewrite bool_decide_eq_true_2 by exact Herr. eexists; reflexivity.
    + right. exact Hout.
  - intros rev r i Hg He. eapply config_group_probe_present; eassumption.
Qed.

End FatalStates.

(** The amended C5 on the scripted remote: instance "I1" turns out in
    status "ERROR" and its create poll fails on that probe; group "C1" is
    fetched with a status member "ERROR" and its probe says "ACTIVE". *)
Lemma fatal_state_ends_the_poll_witness :
  (∃ err,
     resource.WaitForState
       (resource.mkStateChangeConf Scripted.World _ ["BUILD"] ["ACTIVE"]
          (DbInstance.InstanceStateRefreshFunc tt "I1") Scenario.ten_minutes 10 3)
       Scenario.instance_fails
     = (("", Some err),
        Scripted.mkWorld None None "I1" [] [] [inr (Scenario.I1 "ERROR")] []))
  ∧ DbConfigGroup.DbConfigGroupStateRefreshFunc openstack_dir tt "C1"
      Scenario.cg_in_error
    = (resource.mkProbe (Some Scenario.cg_fetched) "ACTIVE" None,
       Scenario.cg_in_error_after_one_fetch).
Proof.
  split.
  - refine (proj1 (proj2 (fatal_state_ends_the_poll (R := Scripted.World) tt "I1"
                     Scenario.instance_fails
                     (Scripted.mkWorld None None "I1" [] []
                        [inr (Scenario.I1 "ERROR")] [])))
              (Scenario.I1 "ERROR") ["BUILD"] ["ACTIVE"] Scenario.ten_minutes
              10%Z 3%Z _ _);
      [ reflexivity | right; split; apply not_listed; reflexivity ].
  - refine (proj2 (proj2 (fatal_state_ends_the_poll (R := Scripted.World) tt "C1"
                     Scenario.cg_in_error Scenario.cg_in_error_after_one_fetch))
              openstack_dir (mkResult (Some Scenario.cg_body_error) None)
              Scenario.cg_fetched _ _); [ reflexivity | vm_compute; reflexivity ].
Defined.

(** C5 as stated fails for the configuration group: the remote creates
    "C1" and reports it with status "ERROR"; the create poll does not fail,
    it succeeds on the first probe, and [resourceDbConfigGroupCreate]
    adopts the group. *)
Lemma config_group_poll_succeeds_on_error_status :
  Scenario.cg_body_error !! "status" = Some "ERROR"
  ∧ resource.WaitForState
      (resource.mkStateChangeConf Scripted.World _ ["BUILD"] ["ACTIVE"]
         (DbConfigGroup.DbConfigGroupStateRefreshFunc unnamed_part tt "C1")
         Scenario.ten_minutes 10 3)
      Scenario.cg_in_error
    = (("ACTIVE", None), Scenario.cg_in_error_after_one_fetch)
  ∧ fst (fst (DbConfigGroup.resourceDbConfigGroupCreate unnamed_part
                Scenario.cg_declared tt Scenario.cg_in_error))
    = None.
Proof. repeat split; vm_compute; reflexivity. Qed.

(** ** Configuration values on the wire *)

Lemma coerce_integer (s : string) (n : Z) :
  strconv.Atoi s = Some n → DbConfigGroup.coerce s = VInt n.
Proof. intros H. unfold DbConfigGroup.coerce. rewrite H. reflexivity. Qed.

Lemma coerce_text (s : string) :
  strconv.Atoi s = None → DbConfigGroup.coerce s = VString s.
Proof. intros H. unfold DbConfigGroup.coerce. rewrite H. reflexivity. Qed.

Lemma Atoi_examples :
  strconv.Atoi "5" = Some 5%Z
  ∧ strconv.Atoi "latin1_swedish_ci" = None
  ∧ strconv.Atoi "-12" = Some (-12)%Z
  ∧ strconv.Atoi "+" = None
  ∧ strconv.Atoi "" = None
  ∧ strconv.Atoi "9223372036854775807" = Some (2 ^ 63 - 1)%Z
  ∧ strconv.Atoi "9223372036854775808" = None.
Proof. repeat split; reflexivity. Qed.

(** the loop of the later revision, run on from a map [m] *)
Lemma values_loop_keeps_other_names (post : list DbConfigGroup.configuration_block)
    (m : gmap string value) (k : string) :
  k ∉ map DbConfigGroup.cfg_name post →
  foldl (λ values z,
           <[ DbConfigGroup.cfg_name z
              := DbConfigGroup.coerce (DbConfigGroup.cfg_value z) ]> values)
        m post !! k
  = m !! k.
Proof.
  revert m. induction post as [|z post IH]; intros m Hk; [ reflexivity | ].
  simpl in *. apply not_elem_of_cons in Hk as [Hne Hk].
  rewrite IH by exact Hk. apply lookup_insert_ne. congruence.
Qed.

(** The later revision does what C7 says: every declared pair reaches the
    payload under its name, as an integer when [strconv.Atoi] accepts the
    declared string and as that string otherwise (of two pairs with one
    name the map keeps the later). *)
Lemma later_revision_coerces_every_value
    (pre post : list DbConfigGroup.configuration_block)
    (z : DbConfigGroup.configuration_block) :
  DbConfigGroup.cfg_name z ∉ map DbConfigGroup.cfg_name post →
  DbConfigGroup.values unnamed_part (pre ++ z :: post) !! DbConfigGroup.cfg_name z
  = Some (match strconv.Atoi (DbConfigGroup.cfg_value z) with
          | Some n => VInt n
          | None => VString (DbConfigGroup.cfg_value z)
          end).
Proof.
  intros Hk. unfold DbConfigGroup.values. rewrite foldl_app. simpl.
  rewrite values_loop_keeps_other_names by exact Hk.
  rewrite lookup_insert_eq. reflexivity.
Qed.

Lemma later_revision_values_example :
  DbConfigGroup.values unnamed_part
    (DbConfigGroup.configuration Scenario.cg_declared)
  = {[ "max_connections" := VInt 5;
       "collation_server" := VString "latin1_swedish_ci" ]}.
Proof.
  apply map_eq. intros k. unfold DbConfigGroup.values. simpl.
  change (DbConfigGroup.coerce "5") with (VInt 5).
  change (DbConfigGroup.coerce "latin1_swedish_ci") with (VString "latin1_swedish_ci").
  destruct (decide (k = "collation_server")) as [->|H1];
    [ rewrite !lookup_insert_eq; rewrite lookup_insert_ne by discriminate;
      rewrite lookup_singleton_eq; reflexivity | ].
  rewrite lookup_insert_ne by congruence.
  destruct (decide (k = "max_connections")) as [->|H2].
  - rewrite !lookup_insert_eq. reflexivity.
  - rewrite !lookup_insert_ne by congruence.
    rewrite lookup_empty. rewrite lookup_singleton_ne by congruence. reflexivity.
Qed.

(** C7 at the failing input, in the revision of
    src/openstack/resource_openstack_db_config_group.go: of the declared
    pairs [max_connections = "5"] and
    [collation_server = "latin1_swedish_ci"] the request carries the first
    one only, and carries its value as the string "5" although
    [strconv.Atoi] accepts it as 5. *)
Theorem earlier_revision_sends_first_value_as_string :
  strconv.Atoi "5" = Some 5%Z
  ∧ configurations.CreateOpts.Values
      (DbConfigGroup.createOpts openstack_dir Scenario.cg_declared)
    = {[ "max_connections" := VString "5" ]}
  ∧ configurations.CreateOpts.Values
      (DbConfigGroup.createOpts openstack_dir Scenario.cg_declared)
    !! "max_connections" ≠ Some (VInt 5)
  ∧ configurations.CreateOpts.Values
      (DbConfigGroup.createOpts openstack_dir Scenario.cg_declared)
    !! "collation_server" = None.
Proof.
  split; [ reflexivity | ]. split; [ reflexivity | ]. split.
  - simpl. rewrite lookup_singleton_eq. discriminate.
  - simpl. apply lookup_singleton_ne. discriminate.
Qed.

(** ** The create request of an instance *)

Lemma instance_request_has_at_most_one_of_each (rev : revision)
    (d : DbInstance.ResourceData) :
  (length (instances.CreateOpts.Networks (DbInstance.createOpts rev d)) ≤ 1)%nat
  ∧ (length (instances.CreateOpts.Databases (DbInstance.createOpts rev d)) ≤ 1)%nat
  ∧ (length (instances.CreateOpts.Users (DbInstance.createOpts rev d)) ≤ 1)%nat.
Proof.
  destruct rev; simpl; [ lia | ].
  destruct (DbInstance.network d), (DbInstance.database d), (DbInstance.user d);
    simpl; lia.
Qed.

(** C9 at the failing input: an instance declared with the networks
    "net-1" and "net-2", the databases "app" and "logs" and the users "bob"
    and "eve".  The create request carries the first network, the first
    database and the first user, and nothing of the second ones. *)
Theorem instance_request_carries_first_elements_only :
  instances.CreateOpts.Networks
    (DbInstance.createOpts unnamed_part Scenario.instance_declared)
  = [instances.NetworkOpts.mk "net-1" "" "" ""]
  ∧ instances.CreateOpts.Databases
      (DbInstance.createOpts unnamed_part Scenario.instance_declared)
    = [databases.CreateOpts.mk "app" "utf8" ""]
  ∧ instances.CreateOpts.Users
      (DbInstance.createOpts unnamed_part Scenario.instance_declared)
    = [users.CreateOpts.mk "bob" "x" "%" [databases.CreateOpts.mk "app" "" ""]]
  ∧ length (DbInstance.network Scenario.instance_declared) = 2
  ∧ length (DbInstance.database Scenario.instance_declared) = 2
  ∧ length (DbInstance.user Scenario.instance_declared) = 2.
Proof. repeat split; reflexivity. Qed.

(** ** The configuration-group probe *)

Section ConfigGroupProbe.
Context {R : Type} `{!OpenStack R}.

(** C10: the configuration-group probe (in both revisions) reports every
    successful fetch as state "ACTIVE", whatever was fetched, and every 404
    as the absent state of its revision, which is the target of the delete
    poll.  So the create poll (pending BUILD, target ACTIVE) succeeds on the
    first probe whenever the fetch succeeds, and the probe never reports
    BUILD, SHUTOFF or an error status. *)
Theorem config_group_probe_reports_active_or_absent
    (rev : revision) (client : ServiceClient) (id : string)
    (w w1 : R) (r : Result JSON) :
  configurations_Get client id w = (r, w1) →
  (∀ i : configurations.Config.t,
     DbConfigGroup.Extract r = inr i →
     DbConfigGroup.DbConfigGroupStateRefreshFunc rev client id w
     = (resource.mkProbe (Some i) "ACTIVE" None, w1))
  ∧ (∀ msg : string,
       DbConfigGroup.Extract r = inl (ErrDefault404 msg) →
       DbConfigGroup.DbConfigGroupStateRefreshFunc rev client id w
       = (resource.mkProbe None (DbConfigGroup.absent rev) None, w1))
  ∧ (∀ (i : configurations.Config.t) (window : nat),
       DbConfigGroup.Extract r = inr i →
       resource.WaitForState
         (resource.mkStateChangeConf R _ ["BUILD"] ["ACTIVE"]
            (DbConfigGroup.DbConfigGroupStateRefreshFunc rev client id)
            window 10 3) w
       = (("ACTIVE", None), w1))
  ∧ (let p := fst (DbConfigGroup.DbConfigGroupStateRefreshFunc rev client id w) in
     (resource.Err p = None →
      resource.State p = "ACTIVE" ∨ resource.State p = DbConfigGroup.absent rev)
     ∧ (resource.State p ∉ ["BUILD"; "SHUTOFF"; "ERROR"; "error"])).
Proof.
  intros Hg.
  assert (Hactive : ∀ i : configurations.Config.t,
             DbConfigGroup.Extract r = inr i →
             DbConfigGroup.DbConfigGroupStateRefreshFunc rev client id w
             = (resource.mkProbe (Some i) "ACTIVE" None, w1)).
  { intros i He. unfold DbConfigGroup.DbConfigGroupStateRefreshFunc, bind.
    rewrite Hg, He. reflexivity. }
  split; [ exact Hactive | split; [ | split ] ].
  - intros msg He. unfold DbConfigGroup.DbConfigGroupStateRefreshFunc, bind.
    rewrite Hg, He. reflexivity.
  - intros i window He. unfold resource.WaitForState.
    apply (poll_target _ _ w w1 (resource.mkProbe (Some i) "ACTIVE" None));
      [ simpl; apply Hactive; exact He | reflexivity | simpl; apply list_elem_of_here ].
  - unfold DbConfigGroup.DbConfigGroupStateRefreshFunc, bind. rewrite Hg.
    destruct (DbConfigGroup.Extract r) as [err|i]; simpl.
    + destruct (is_ErrDefault404 err); simpl.
      * split; [ intros _; right; reflexivity | ].
        apply not_listed. destruct rev; reflexivity.
      * split; [ discriminate | apply not_listed; reflexivity ].
    + split; [ intros _; left; reflexivity | apply not_listed; reflexivity ].
Qed.

End ConfigGroupProbe.

(** C10 on the scripted remote: group "C1" is fetched (with a status
    member "ERROR" in the body, which the decoded group does not hold). *)
Lemma config_group_probe_reports_active_or_absent_witness :
  resource.WaitForState
    (resource.mkStateChangeConf Scripted.World _ ["BUILD"] ["ACTIVE"]
       (DbConfigGroup.DbConfigGroupStateRefreshFunc unnamed_part tt "C1")
       Scenario.ten_minutes 10 3)
    Scenario.cg_in_error
  = (("ACTIVE", None), Scenario.cg_in_error_after_one_fetch).
Proof.
  refine (proj1 (proj2 (proj2
            (config_group_probe_reports_active_or_absent (R := Scripted.World)
               unnamed_part tt "C1" Scenario.cg_in_error
               Scenario.cg_in_error_after_one_fetch
               (mkResult (Some Scenario.cg_body_error) None) _)))
            Scenario.cg_fetched Scenario.ten_minutes _);
    [ reflexivity | vm_compute; reflexivity ].
Defined.

(** ** The identifier that Create persists *)

Section PersistedIdentifier.
Context {R : Type} `{!OpenStack R}.

Lemma database_read_keeps_id (d d' : Database.ResourceData) (meta : Config)
    (w w' : R) (res : option error) :
  Database.resourceDatabaseRead d meta w = ((res, d'), w') →
  Database.Id d' = Database.Id d.
Proof.
  unfold Database.resourceDatabaseRead, bind, ret.
  destruct (databaseInstanceClient meta _) as [err|client];
    [ intros [= _ <- _]; reflexivity | ].
  destruct (databases_List_AllPages client (Database.Id d) w) as [[pages [e|]] w1];
    [ intros [= _ <- _]; reflexivity | ].
  destruct (databases_ExtractDBs pages) as [dbs [e|]];
    [ intros [= _ <- _]; reflexivity | ].
  destruct (find _ dbs); intros [= _ <- _]; reflexivity.
Qed.

Lemma user_read_keeps_id (d d' : DbUser.ResourceData) (meta : Config)
    (w w' : R) (res : option error) :
  DbUser.resourceDbUserRead d meta w = ((res, d'), w') →
  DbUser.Id d' = DbUser.Id d.
Proof.
  unfold DbUser.resourceDbUserRead, bind, ret.
  destruct (databaseInstanceClient meta _) as [err|client];
    [ intros [= _ <- _]; reflexivity | ].
  destruct (users_List_AllPages client (DbUser.Id d) w) as [[pages [e|]] w1];
    [ intros [= _ <- _]; reflexivity | ].
  destruct (users_ExtractUsers pages) as [us [e|]];
    [ intros [= _ <- _]; reflexivity | ].
  destruct (find _ us); intros [= _ <- _]; reflexivity.
Qed.

(** C8 (as amended): after a successful Create of an instance or of a
    configuration group the persisted identifier is the ID of the object
    that the create call returned, or it is empty because the read that
    closes Create got a 404 for that ID and dropped the object.  After a
    successful Create of a database or of a user the persisted identifier
    is the declared [instance], the ID of the parent: the create call of a
    child returns no ID. *)
Theorem identifier_persisted_by_create (meta : Config) (w w' : R) :
  (∀ (rev : revision) (d d' : DbInstance.ResourceData),
     DbInstance.resourceDatabaseInstanceCreate rev d meta w = ((None, d'), w') →
     ∃ (client : ServiceClient) (created : instances.Instance.t) (w1 : R),
       databaseInstanceClient meta (GetRegion (DbInstance.region d) meta) = inr client
       ∧ instances_Create client (DbInstance.createOpts rev d) w = (inr created, w1)
       ∧ (DbInstance.Id d' = instances.Instance.ID created
          ∨ (DbInstance.Id d' = ""
             ∧ ∃ (w2 : R) (msg : string),
                 instances_Get client (instances.Instance.ID created) w2
                 = (inl (ErrDefault404 msg), w'))))
  ∧ (∀ (rev : revision) (d d' : DbConfigGroup.ResourceData),
       DbConfigGroup.resourceDbConfigGroupCreate rev d meta w = ((None, d'), w') →
       ∃ (client : ServiceClient) (r : Result JSON)
         (created : configurations.Config.t) (w1 : R),
         databaseInstanceClient meta (GetRegion (DbConfigGroup.region d) meta)
         = inr client
         ∧ DbConfigGroup.create_call rev client (DbConfigGroup.createOpts rev d) w
           = (r, w1)
         ∧ DbConfigGroup.Extract r = inr created
         ∧ (DbConfigGroup.Id d' = configurations.Config.ID created
            ∨ (DbConfigGroup.Id d' = ""
               ∧ ∃ (w2 : R) (r2 : Result JSON) (msg : string),
                   configurations_Get client (configurations.Config.ID created) w2
                   = (r2, w')
                   ∧ DbConfigGroup.Extract r2 = inl (ErrDefault404 msg))))
  ∧ (∀ d d' : Database.ResourceData,
       Database.resourceDatabaseCreate d meta w = ((None, d'), w') →
       Database.Id d' = Database.instance d)
  ∧ (∀ d d' : DbUser.ResourceData,
       DbUser.resourceDbUserCreate d meta w = ((None, d'), w') →
       DbUser.Id d' = DbUser.instance d).
Proof.
  repeat apply conj.
  - intros rev d d'.
    unfold DbInstance.resourceDatabaseInstanceCreate, bind, ret.
    destruct (databaseInstanceClient meta (GetRegion (DbInstance.region d) meta))
      as [err|client] eqn:Hc; [ discriminate | ].
    destruct (instances_Create client _ w) as [[err|created] w1] eqn:Hr;
      [ discriminate | ].
    destruct (resource.WaitForState _ w1) as [[res [err|]] w2]; [ discriminate | ].
    unfold DbInstance.resourceDatabaseInstanceRead, bind, ret. simpl.
    rewrite Hc.
    destruct (instances_Get client (instances.Instance.ID created) w2)
      as [[err|i] w3] eqn:Hg.
    + unfold CheckDeleted. destruct err; simpl; try discriminate.
      intros [= <- <-]. exists client, created, w1.
      split; [ first [ reflexivity | exact Hc ] | split; [ exact Hr | right ] ].
      split; [ reflexivity | eauto ].
    + intros [= <- <-]. exists client, created, w1.
      split; [ first [ reflexivity | exact Hc ] | split; [ exact Hr | left; reflexivity ] ].
  - intros rev d d'.
    unfold DbConfigGroup.resourceDbConfigGroupCreate, bind, ret.
    destruct (databaseInstanceClient meta (GetRegion (DbConfigGroup.region d) meta))
      as [err|client] eqn:Hc; [ discriminate | ].
    destruct (DbConfigGroup.create_call rev client _ w) as [r w1] eqn:Hr.
    destruct (DbConfigGroup.Extract r) as [err|created] eqn:He; [ discriminate | ].
    destruct (resource.WaitForState _ w1) as [[res [err|]] w2]; [ discriminate | ].
    unfold DbConfigGroup.resourceDbConfigGroupRead, bind, ret. simpl.
    rewrite Hc.
    destruct (configurations_Get client (configurations.Config.ID created) w2)
      as [r2 w3] eqn:Hg.
    destruct (DbConfigGroup.Extract r2) as [err|i] eqn:He2.
    + unfold CheckDeleted. destruct err; simpl; try discriminate.
      intros [= <- <-]. exists client, r, created, w1.
      split; [ first [ reflexivity | exact Hc ] | split; [ exact Hr | split; [ exact He | right ] ] ].
      split; [ reflexivity | eauto ].
    + intros [= <- <-]. exists client, r, created, w1.
      split; [ first [ reflexivity | exact Hc ] | split; [ exact Hr | split; [ exact He | left ] ] ].
      reflexivity.
  - intros d d'. unfold Database.resourceDatabaseCreate, bind, ret.
    destruct (databaseInstanceClient meta (GetRegion (Database.region d) meta))
      as [err|client]; [ discriminate | ].
    destruct (databases_Create client _ _ w) as [reply w1].
    destruct (resource.WaitForState _ w1) as [[res [err|]] w2]; [ discriminate | ].
    intros Hread. apply database_read_keeps_id in Hread. exact Hread.
  - intros d d'. unfold DbUser.resourceDbUserCreate, bind, ret.
    destruct (databaseInstanceClient meta (GetRegion (DbUser.region d) meta))
      as [err|client]; [ discriminate | ].
    destruct (users_Create client _ _ w) as [reply w1].
    destruct (resource.WaitForState _ w1) as [[res [err|]] w2]; [ discriminate | ].
    intros Hread. apply user_read_keeps_id in Hread. exact Hread.
Qed.

End PersistedIdentifier.

(** The amended C8 on the scripted remote: database "app" is created on
    "I1" and the identifier it gets is "I1"; instance "basic" is created as
    "I1", seen BUILD, BUILD, ACTIVE, and the identifier it gets is the ID of
    the created object. *)
Lemma identifier_persisted_by_create_witness :
  Database.Id Scenario.app_adopted = Database.instance Scenario.app_declared
  ∧ ∃ (created : instances.Instance.t) (w1 : Scripted.World),
      instances_Create tt
        (DbInstance.createOpts unnamed_part Scenario.instance_declared)
        Scenario.instance_builds
      = (inr created, w1)
      ∧ instances.Instance.ID created = "I1".
Proof.
  split.
  - exact (proj1 (proj2 (proj2
             (identifier_persisted_by_create (R := Scripted.World) tt
                Scenario.app_listed Scripted.quiet)))
             Scenario.app_declared Scenario.app_adopted eq_refl).
  - destruct (proj1 (@identifier_persisted_by_create Scripted.World Scripted.cloud tt
                Scenario.instance_builds
                (Scripted.mkWorld None None "I1" [] [] [] []))
                unnamed_part Scenario.instance_declared
                (DbInstance.Set_attrs (Scenario.I1 "ACTIVE") "RegionOne"
                   Scenario.instance_adopted)
                eq_refl)
      as (client & created & w1 & _ & Hcreate & Hid).
    exists created, w1. destruct client. split; [ exact Hcreate | ].
    destruct Hid as [Hid | [Hid _]]; [ symmetry; exact Hid | discriminate Hid ].
Defined.

(** C8 as stated fails for a database: "app" and "logs" are both created
    with success on instance "I1", and each is persisted under "I1", the
    identifier of the parent, which neither create call returned and which
    does not tell the two objects apart. *)
Lemma database_is_persisted_under_the_parent_id :
  Database.resourceDatabaseCreate Scenario.app_declared tt Scenario.both_listed
  = ((None, Scenario.app_adopted), Scripted.quiet)
  ∧ Database.resourceDatabaseCreate Scenario.logs_declared tt Scenario.both_listed
    = ((None, Database.SetId "I1" Scenario.logs_declared), Scripted.quiet)
  ∧ Database.Id Scenario.app_adopted = "I1"
  ∧ Database.Id (Database.SetId "I1" Scenario.logs_declared) = "I1"
  ∧ databases_Create (R := Scripted.World) tt "I1"
      [databases.CreateOpts.mk "app" "utf8" "utf8_general_ci"] Scenario.both_listed
    = (None, Scenario.both_listed).
Proof. repeat split; reflexivity. Qed.

(** ** The instance scenario of the poll

    "I1" is BUILD on the first two probes and ACTIVE on the third: the
    create poll ends in state ACTIVE after exactly three fetches. *)
Lemma instance_poll_build_build_active :
  resource.WaitForState
    (resource.mkStateChangeConf Scripted.World _ ["BUILD"] ["ACTIVE"]
       (DbInstance.InstanceStateRefreshFunc tt "I1") Scenario.ten_minutes 10 3)
    Scenario.instance_builds
  = (("ACTIVE", None),
     Scripted.mkWorld None None "I1" [] [] [inr (Scenario.I1 "ACTIVE")] []).
Proof. reflexivity. Qed.

(** A probe that stays pending uses up the window and ends in a timeout
    error, never in a success. *)
Lemma instance_poll_times_out :
  resource.WaitForState
    (resource.mkStateChangeConf Scripted.World _ ["BUILD"] ["ACTIVE"]
       (DbInstance.InstanceStateRefreshFunc tt "I1") 1 10 3)
    Scenario.instance_builds
  = (("", Some (TimeoutError "BUILD")),
     Scripted.mkWorld None None "I1" [] []
       [inr (Scenario.I1 "ACTIVE"); inr (Scenario.I1 "ACTIVE")] []).
Proof. reflexivity. Qed.

(** * Further properties of the adapters *)

(** ** What Read and Create of a child leave untouched *)

Lemma find_named_database (dbname : string) (dbs : list databases.Database.t)
    (v : databases.Database.t) :
  List.find (Database.named dbname) dbs = Some v →
  databases.Database.Name v = dbname ∧ v ∈ dbs.
Proof.
  intros Hf. apply find_some in Hf as [Hin Hn]. split.
  - unfold Database.named in Hn. apply bool_decide_eq_true in Hn. exact Hn.
  - apply list_elem_of_In. exact Hin.
Qed.

Lemma find_named_user (username : string) (us : list users.User.t)
    (v : users.User.t) :
  List.find (DbUser.named username) us = Some v →
  users.User.Name v = username ∧ v ∈ us.
Proof.
  intros Hf. apply find_some in Hf as [Hin Hn]. split.
  - unfold DbUser.named in Hn. apply bool_decide_eq_true in Hn. exact Hn.
  - apply list_elem_of_In. exact Hin.
Qed.

Section ChildFrame.
Context {R : Type} `{!OpenStack R}.

Lemma database_read_frame (d d' : Database.ResourceData) (meta : Config)
    (w w' : R) (res : option error) :
  Database.resourceDatabaseRead d meta w = ((res, d'), w') →
  (∃ cs co : string,
     d' = Database.mkData (Database.Id d) (Database.region d) (Database.name d)
            (Database.instance d) cs co
            (Database.TimeoutCreate d) (Database.TimeoutDelete d))
  ∧ (is_Some res → d' = d).
Proof.
  assert (Hsame : ∃ cs co : string,
             d = Database.mkData (Database.Id d) (Database.region d)
                   (Database.name d) (Database.instance d) cs co
                   (Database.TimeoutCreate d) (Database.TimeoutDelete d)).
  { exists (Database.charset d), (Database.collate d). destruct d; reflexivity. }
  unfold Database.resourceDatabaseRead, bind, ret.
  destruct (databaseInstanceClient meta _) as [err|client];
    [ intros [= <- <- _]; split; [ exact Hsame | reflexivity ] | ].
  destruct (databases_List_AllPages client (Database.Id d) w) as [[pages [e|]] w1];
    [ intros [= <- <- _]; split; [ exact Hsame | reflexivity ] | ].
  destruct (databases_ExtractDBs pages) as [dbs [e|]];
    [ intros [= <- <- _]; split; [ exact Hsame | reflexivity ] | ].
  destruct (find _ dbs) as [v|] eqn:Hf; intros [= <- <- _].
  - apply find_named_database in Hf as [Hn _]. split.
    + exists (databases.Database.CharSet v), (databases.Database.Collate v).
      unfold Database.Set_attrs. rewrite Hn. reflexivity.
    + intros [e He]; discriminate He.
  - split; [ exact Hsame | reflexivity ].
Qed.

Lemma user_read_frame (d d' : DbUser.ResourceData) (meta : Config)
    (w w' : R) (res : option error) :
  DbUser.resourceDbUserRead d meta w = ((res, d'), w') →
  (∃ (pw : string) (dbs : list string),
     d' = DbUser.mkData (DbUser.Id d) (DbUser.region d) (DbUser.name d)
            (DbUser.instance d) pw (DbUser.host d) dbs
            (DbUser.TimeoutCreate d) (DbUser.TimeoutDelete d))
  ∧ (is_Some res → d' = d).
Proof.
  assert (Hsame : ∃ (pw : string) (dbs : list string),
             d = DbUser.mkData (DbUser.Id d) (DbUser.region d) (DbUser.name d)
                   (DbUser.instance d) pw (DbUser.host d) dbs
                   (DbUser.TimeoutCreate d) (DbUser.TimeoutDelete d)).
  { exists (DbUser.password d), (DbUser.databases d). destruct d; reflexivity. }
  unfold DbUser.resourceDbUserRead, bind, ret.
  destruct (databaseInstanceClient meta _) as [err|client];
    [ intros [= <- <- _]; split; [ exact Hsame | reflexivity ] | ].
  destruct (users_List_AllPages client (DbUser.Id d) w) as [[pages [e|]] w1];
    [ intros [= <- <- _]; split; [ exact Hsame | reflexivity ] | ].
  destruct (users_ExtractUsers pages) as [us [e|]];
    [ intros [= <- <- _]; split; [ exact Hsame | reflexivity ] | ].
  destruct (find _ us) as [v|] eqn:Hf; intros [= <- <- _].
  - apply find_named_user in Hf as [Hn _]. split.
    + exists (users.User.Password v),
             (map databases.Database.Name (users.User.Databases v)).
      unfold DbUser.Set_attrs. rewrite Hn. reflexivity.
    + intros [e He]; discriminate He.
  - split; [ exact Hsame | reflexivity ].
Qed.

(** X1: Read of a database changes nothing but charset and collate, and
    Read of a user nothing but password and databases: identifier, region,
    name, instance (and host) stay as they were whatever the remote
    answers, and a Read that returns an error changes nothing at all. *)
Theorem child_read_touches_refreshed_attributes_only (meta : Config) (w w' : R) :
  (∀ (d d' : Database.ResourceData) (res : option error),
     Database.resourceDatabaseRead d meta w = ((res, d'), w') →
     (∃ cs co : string,
        d' = Database.mkData (Database.Id d) (Database.region d) (Database.name d)
               (Database.instance d) cs co
               (Database.TimeoutCreate d) (Database.TimeoutDelete d))
     ∧ (is_Some res → d' = d))
  ∧ (∀ (d d' : DbUser.ResourceData) (res : option error),
       DbUser.resourceDbUserRead d meta w = ((res, d'), w') →
       (∃ (pw : string) (dbs : list string),
          d' = DbUser.mkData (DbUser.Id d) (DbUser.region d) (DbUser.name d)
                 (DbUser.instance d) pw (DbUser.host d) dbs
                 (DbUser.TimeoutCreate d) (DbUser.TimeoutDelete d))
       ∧ (is_Some res → d' = d)).
Proof.
  split; intros d d' res Hread.
  - eapply database_read_frame; exact Hread.
  - eapply user_read_frame; exact Hread.
Qed.

(** X2: Create of a database (of a user) has two outcomes only.  Either
    it fails and the declared data are as they were, or the poll has
    succeeded and the data differ from the declared ones in the identifier,
    which is now the declared instance, and in the attributes that the
    closing Read refreshes; this second outcome can still carry the error
    of that Read. *)
Theorem child_create_outcomes (meta : Config) (w w' : R) :
  (∀ (d d' : Database.ResourceData) (res : option error),
     Database.resourceDatabaseCreate d meta w = ((res, d'), w') →
     (is_Some res ∧ d' = d)
     ∨ (∃ cs co : string,
          d' = Database.mkData (Database.instance d) (Database.region d)
                 (Database.name d) (Database.instance d) cs co
                 (Database.TimeoutCreate d) (Database.TimeoutDelete d)))
  ∧ (∀ (d d' : DbUser.ResourceData) (res : option error),
       DbUser.resourceDbUserCreate d meta w = ((res, d'), w') →
       (is_Some res ∧ d' = d)
       ∨ (∃ (pw : string) (dbs : list string),
            d' = DbUser.mkData (DbUser.instance d) (DbUser.region d)
                   (DbUser.name d) (DbUser.instance d) pw (DbUser.host d) dbs
                   (DbUser.TimeoutCreate d) (DbUser.TimeoutDelete d))).
Proof.
  split; intros d d' res.
  - unfold Database.resourceDatabaseCreate, bind, ret.
    destruct (databaseInstanceClient meta _) as [err|client];
      [ intros [= <- <- _]; left; split; [ eexists | ]; reflexivity | ].
    destruct (databases_Create client _ _ w) as [reply w1].
    destruct (resource.WaitForState _ w1) as [[st [err|]] w2];
      [ intros [= <- <- _]; left; split; [ eexists | ]; reflexivity | ].
    intros Hread. right. apply database_read_frame in Hread as [Hd' _].
    exact Hd'.
  - unfold DbUser.resourceDbUserCreate, bind, ret.
    destruct (databaseInstanceClient meta _) as [err|client];
      [ intros [= <- <- _]; left; split; [ eexists | ]; reflexivity | ].
    destruct (users_Create client _ _ w) as [reply w1].
    destruct (resource.WaitForState _ w1) as [[st [err|]] w2];
      [ intros [= <- <- _]; left; split; [ eexists | ]; reflexivity | ].
    intros Hread. right. apply user_read_frame in Hread as [Hd' _].
    exact Hd'.
Qed.

End ChildFrame.

Lemma child_read_touches_refreshed_attributes_only_witness :
  (∃ cs co : string,
     Scenario.app_adopted
     = Database.mkData "I1" "RegionOne" "app" "I1" cs co
         Scenario.ten_minutes Scenario.ten_minutes)
  ∧ (∃ (pw : string) (dbs : list string),
       Scenario.bob_adopted
       = DbUser.mkData "I1" "RegionOne" "bob" "I1" pw "%" dbs
           Scenario.ten_minutes Scenario.ten_minutes).
Proof.
  split.
  - exact (proj1 (proj1 (@child_read_touches_refreshed_attributes_only
                           Scripted.World Scripted.cloud tt
                           Scenario.app_listed Scripted.quiet)
                   Scenario.app_adopted Scenario.app_adopted None eq_refl)).
  - exact (proj1 (proj2 (@child_read_touches_refreshed_attributes_only
                           Scripted.World Scripted.cloud tt
                           Scenario.bob_listed Scripted.quiet)
                   Scenario.bob_adopted Scenario.bob_adopted None eq_refl)).
Defined.

Lemma child_create_outcomes_witness :
  (is_Some (Some (errorString
      "Error waiting for database (Error retrieving database app status) to become ready"))
   ∧ Scenario.app_declared = Scenario.app_declared)
  ∨ (∃ cs co : string,
       Scenario.app_declared
       = Database.mkData "I1" "RegionOne" "app" "I1" cs co
           Scenario.ten_minutes Scenario.ten_minutes).
Proof.
  exact (proj1 (@child_create_outcomes Scripted.World Scripted.cloud tt
                  Scenario.app_shows_up_second Scenario.app_listed)
           Scenario.app_declared Scenario.app_declared _ eq_refl).
Defined.

(** ** What a child-scan probe can report *)

Section ChildProbeOutcomes.
Context {R : Type} `{!OpenStack R}.

Lemma database_probe_outcomes (client : ServiceClient) (instance_id dbname : string)
    (w w1 : R) (p : resource.Probe databases.Database.t) :
  Database.DatabaseStateRefreshFunc client instance_id dbname w = (p, w1) →
  (is_Some (resource.Err p) ∧ resource.State p = "" ∧ resource.Result p = None)
  ∨ (∃ (pages : DBPage) (dbs : list databases.Database.t) (v : databases.Database.t),
       databases_List_AllPages client instance_id w = ((pages, None), w1)
       ∧ databases_ExtractDBs pages = (dbs, None)
       ∧ List.find (Database.named dbname) dbs = Some v
       ∧ p = resource.mkProbe (Some v) "ACTIVE" None).
Proof.
  unfold Database.DatabaseStateRefreshFunc, bind, ret.
  destruct (databases_List_AllPages client instance_id w) as [[pages [e|]] w2];
    [ intros [= <- _]; left; simpl; eauto | ].
  destruct (databases_ExtractDBs pages) as [dbs [e|]] eqn:He;
    [ intros [= <- _]; left; simpl; eauto | ].
  destruct (find _ dbs) as [v|] eqn:Hf; intros [= <- <-].
  - right. exists pages, dbs, v. auto.
  - left. simpl. eauto.
Qed.

Lemma user_probe_outcomes (client : ServiceClient) (instance_id username : string)
    (w w1 : R) (p : resource.Probe users.User.t) :
  DbUser.DbUserStateRefreshFunc client instance_id username w = (p, w1) →
  (is_Some (resource.Err p) ∧ resource.State p = "" ∧ resource.Result p = None)
  ∨ (∃ (pages : UserPage) (us : list users.User.t) (v : users.User.t),
       users_List_AllPages client instance_id w = ((pages, None), w1)
       ∧ users_ExtractUsers pages = (us, None)
       ∧ List.find (DbUser.named username) us = Some v
       ∧ p = resource.mkProbe (Some v) "ACTIVE" None).
Proof.
  unfold DbUser.DbUserStateRefreshFunc, bind, ret.
  destruct (users_List_AllPages client instance_id w) as [[pages [e|]] w2];
    [ intros [= <- _]; left; simpl; eauto | ].
  destruct (users_ExtractUsers pages) as [us [e|]] eqn:He;
    [ intros [= <- _]; left; simpl; eauto | ].
  destruct (find _ us) as [v|] eqn:Hf; intros [= <- <-].
  - right. exists pages, us, v. auto.
  - left. simpl. eauto.
Qed.

(** X3: a child-scan probe has two outcomes only.  It reports state
    "ACTIVE" without an error together with an object that is in the
    decoded listing of the parent and bears the wanted name, or it reports
    an error with the empty state and no object.  It never reports
    "BUILD", the one pending state of the create poll. *)
Theorem child_probe_reports_active_or_an_error
    (client : ServiceClient) (instance_id child : string) (w w1 : R) :
  (∀ p : resource.Probe databases.Database.t,
     Database.DatabaseStateRefreshFunc client instance_id child w = (p, w1) →
     resource.State p ≠ "BUILD"
     ∧ ((is_Some (resource.Err p) ∧ resource.State p = ""
         ∧ resource.Result p = None)
        ∨ (∃ (pages : DBPage) (dbs : list databases.Database.t)
             (v : databases.Database.t),
             databases_List_AllPages client instance_id w = ((pages, None), w1)
             ∧ databases_ExtractDBs pages = (dbs, None)
             ∧ v ∈ dbs
             ∧ databases.Database.Name v = child
             ∧ p = resource.mkProbe (Some v) "ACTIVE" None)))
  ∧ (∀ p : resource.Probe users.User.t,
       DbUser.DbUserStateRefreshFunc client instance_id child w = (p, w1) →
       resource.State p ≠ "BUILD"
       ∧ ((is_Some (resource.Err p) ∧ resource.State p = ""
           ∧ resource.Result p = None)
          ∨ (∃ (pages : UserPage) (us : list users.User.t) (v : users.User.t),
               users_List_AllPages client instance_id w = ((pages, None), w1)
               ∧ users_ExtractUsers pages = (us, None)
               ∧ v ∈ us
               ∧ users.User.Name v = child
               ∧ p = resource.mkProbe (Some v) "ACTIVE" None))).
Proof.
  split; intros p Hp.
  - apply database_probe_outcomes in Hp
      as [(He & Hs & Hr) | (pages & dbs & v & Hl & Hx & Hf & ->)].
    + split; [ rewrite Hs; discriminate | left; auto ].
    + apply find_named_database in Hf as [Hn Hin].
      split; [ discriminate | right; exists pages, dbs, v; auto ].
  - apply user_probe_outcomes in Hp
      as [(He & Hs & Hr) | (pages & us & v & Hl & Hx & Hf & ->)].
    + split; [ rewrite Hs; discriminate | left; auto ].
    + apply find_named_user in Hf as [Hn Hin].
      split; [ discriminate | right; exists pages, us, v; auto ].
Qed.

End ChildProbeOutcomes.

Lemma child_probe_reports_active_or_an_error_witness :
  resource.State (resource.mkProbe (Some Scenario.app) "ACTIVE" None) ≠ "BUILD".
Proof.
  exact (proj1 (proj1 (@child_probe_reports_active_or_an_error
                         Scripted.World Scripted.cloud tt "I1" "app"
                         Scenario.app_listed Scripted.quiet)
                  (resource.mkProbe (Some Scenario.app) "ACTIVE" None) eq_refl)).
Defined.

(** ** A successful poll ended on a probe of the target *)

Lemma poll_success_inv {R A : Type} (conf : resource.StateChangeConf R A)
    (retries : nat) (w w' : R) (st : string) :
  resource.poll conf retries w = ((st, None), w') →
  ∃ (w0 : R) (p : resource.Probe A),
    resource.Refresh conf w0 = (p, w')
    ∧ resource.Err p = None
    ∧ resource.State p = st
    ∧ st ∈ resource.Target conf.
Proof.
  revert w. induction retries as [|n IH]; intros w; simpl;
    destruct (resource.Refresh conf w) as [p w1] eqn:Hp;
    destruct (resource.Err p) as [err|] eqn:He; try discriminate;
    unfold resource.contains;
    destruct (bool_decide (resource.State p ∈ resource.Target conf)) eqn:Ht.
  - intros [= <- <-]. apply bool_decide_eq_true in Ht. eauto 10.
  - destruct (bool_decide (resource.State p ∈ resource.Pending conf)); discriminate.
  - intros [= <- <-]. apply bool_decide_eq_true in Ht. eauto 10.
  - destruct (bool_decide (resource.State p ∈ resource.Pending conf));
      [ apply IH | discriminate ].
Qed.

Section CreateSawTheChild.
Context {R : Type} `{!OpenStack R}.


End CreateSawTheChild.


(** ** Reading twice *)

Section ReadTwice.
Context {R : Type} `{!OpenStack R}.

(** X5: Read of a database (of a user) is idempotent on an unchanged
    listing: when two listings in a row decode to the same children, the
    second Read returns the data of the first unchanged, and neither
    returns an error. *)
Theorem child_read_twice_changes_nothing_more
    (meta : Config) (client : ServiceClient) (w w1 w2 : R) :
  (∀ (d : Database.ResourceData) (pages pages' : DBPage)
     (dbs : list databases.Database.t),
     databaseInstanceClient meta (GetRegion (Database.region d) meta) = inr client →
     databases_List_AllPages client (Database.Id d) w = ((pages, None), w1) →
     databases_ExtractDBs pages = (dbs, None) →
     databases_List_AllPages client (Database.Id d) w1 = ((pages', None), w2) →
     databases_ExtractDBs pages' = (dbs, None) →
     ∃ d1 : Database.ResourceData,
       Database.resourceDatabaseRead d meta w = ((None, d1), w1)
       ∧ Database.resourceDatabaseRead d1 meta w1 = ((None, d1), w2))
  ∧ (∀ (d : DbUser.ResourceData) (pages pages' : UserPage)
       (us : list users.User.t),
       databaseInstanceClient meta (GetRegion (DbUser.region d) meta) = inr client →
       users_List_AllPages client (DbUser.Id d) w = ((pages, None), w1) →
       users_ExtractUsers pages = (us, None) →
       users_List_AllPages client (DbUser.Id d) w1 = ((pages', None), w2) →
       users_ExtractUsers pages' = (us, None) →
       ∃ d1 : DbUser.ResourceData,
         DbUser.resourceDbUserRead d meta w = ((None, d1), w1)
         ∧ DbUser.resourceDbUserRead d1 meta w1 = ((None, d1), w2)).
Proof.
  split.
  - intros d pages pages' dbs Hc Hl He Hl' He'.
    unfold Database.resourceDatabaseRead, bind, ret. rewrite Hc, Hl, He.
    destruct (find (Database.named (Database.name d)) dbs) as [v|] eqn:Hf.
    + exists (Database.Set_attrs v d). split; [ reflexivity | ].
      pose proof (find_named_database _ _ _ Hf) as [Hn _].
      simpl. rewrite Hc, Hl', He', Hn, Hf. reflexivity.
    + exists d. split; [ reflexivity | ]. rewrite Hc, Hl', He', Hf. reflexivity.
  - intros d pages pages' us Hc Hl He Hl' He'.
    unfold DbUser.resourceDbUserRead, bind, ret. rewrite Hc, Hl, He.
    destruct (find (DbUser.named (DbUser.name d)) us) as [v|] eqn:Hf.
    + exists (DbUser.Set_attrs v d). split; [ reflexivity | ].
      pose proof (find_named_user _ _ _ Hf) as [Hn _].
      simpl. rewrite Hc, Hl', He', Hn, Hf. reflexivity.
    + exists d. split; [ reflexivity | ]. rewrite Hc, Hl', He', Hf. reflexivity.
Qed.

End ReadTwice.

Lemma child_read_twice_changes_nothing_more_witness :
  ∃ d1 : Database.ResourceData,
    Database.resourceDatabaseRead
      (Database.mkData "I1" "RegionOne" "app" "I1" "" "" 0 0) tt
      MoreScenarios.app_listed_twice
    = ((None, d1), Scenario.app_listed)
    ∧ Database.resourceDatabaseRead d1 tt Scenario.app_listed
      = ((None, d1), Scripted.quiet).
Proof.
  refine (proj1 (@child_read_twice_changes_nothing_more
                   Scripted.World Scripted.cloud tt tt
                   MoreScenarios.app_listed_twice Scenario.app_listed Scripted.quiet)
            (Database.mkData "I1" "RegionOne" "app" "I1" "" "" 0 0)
            [Scenario.app] [Scenario.app] [Scenario.app] _ _ _ _ _); reflexivity.
Defined.

(** ** What Delete leaves behind *)

Section DeleteOutcome.
Context {R : Type} `{!OpenStack R}.

(** X6: Delete of any kind never touches an attribute.  When it returns
    no error the data are the declared ones with the identifier cleared,
    and when it returns an error the data are exactly as they were, the
    identifier included. *)
Theorem delete_clears_the_identifier_or_changes_nothing
    (meta : Config) (w w' : R) :
  (∀ (d d' : DbInstance.ResourceData) (res : option error),
     DbInstance.resourceDatabaseInstanceDelete d meta w = ((res, d'), w') →
     d' = match res with Some _ => d | None => DbInstance.SetId "" d end)
  ∧ (∀ (rev : revision) (d d' : DbConfigGroup.ResourceData) (res : option error),
       DbConfigGroup.resourceDbConfigGroupDelete rev d meta w = ((res, d'), w') →
       d' = match res with Some _ => d | None => DbConfigGroup.SetId "" d end)
  ∧ (∀ (d d' : Database.ResourceData) (res : option error),
       Database.resourceDatabaseDelete d meta w = ((res, d'), w') →
       d' = match res with Some _ => d | None => Database.SetId "" d end)
  ∧ (∀ (d d' : DbUser.ResourceData) (res : option error),
       DbUser.resourceDbUserDelete d meta w = ((res, d'), w') →
       d' = match res with Some _ => d | None => DbUser.SetId "" d end).
Proof.
  repeat apply conj.
  - intros d d' res. unfold DbInstance.resourceDatabaseInstanceDelete, bind, ret.
    destruct (databaseInstanceClient meta _) as [err|client];
      [ intros [= <- <- _]; reflexivity | ].
    destruct (instances_Delete client (DbInstance.Id d) w) as [[err|] w1];
      [ intros [= <- <- _]; reflexivity | ].
    destruct (resource.WaitForState _ w1) as [[st [err|]] w2];
      intros [= <- <- _]; reflexivity.
  - intros rev d d' res. unfold DbConfigGroup.resourceDbConfigGroupDelete, bind, ret.
    destruct (databaseInstanceClient meta _) as [err|client];
      [ intros [= <- <- _]; reflexivity | ].
    destruct (configurations_Delete client (DbConfigGroup.Id d) w) as [[err|] w1];
      [ intros [= <- <- _]; reflexivity | ].
    destruct (resource.WaitForState _ w1) as [[st [err|]] w2];
      intros [= <- <- _]; reflexivity.
  - intros d d' res. unfold Database.resourceDatabaseDelete, bind, ret.
    destruct (databaseInstanceClient meta _) as [err|client];
      [ intros [= <- <- _]; reflexivity | ].
    destruct (databases_List_AllPages client (Database.Id d) w) as [[pages e] w1].
    destruct (databases_ExtractDBs pages) as [dbs [err|]];
      [ intros [= <- <- _]; reflexivity | ].
    destruct (databases_Delete client _ _ w1) as [reply w2].
    intros [= <- <- _]; reflexivity.
  - intros d d' res. unfold DbUser.resourceDbUserDelete, bind, ret.
    destruct (databaseInstanceClient meta _) as [err|client];
      [ intros [= <- <- _]; reflexivity | ].
    destruct (users_List_AllPages client (DbUser.Id d) w) as [[pages e] w1].
    destruct (users_ExtractUsers pages) as [us [err|]];
      [ intros [= <- <- _]; reflexivity | ].
    destruct (users_Delete client _ _ w1) as [reply w2].
    intros [= <- <- _]; reflexivity.
Qed.

Lemma instance_delete_poll_success (client : ServiceClient) (id : string)
    (window : nat) (delay interval : Z) (w w' : R) (st : string) :
  resource.WaitForState
    (resource.mkStateChangeConf R _ ["ACTIVE"; "SHUTOFF"] ["deleted"]
       (DbInstance.InstanceStateRefreshFunc client id) window delay interval) w
  = ((st, None), w') →
  ∃ w0 : R,
    (∃ msg : string, instances_Get client id w0 = (inl (ErrDefault404 msg), w'))
    ∨ (∃ i : instances.Instance.t,
         instances_Get client id w0 = (inr i, w')
         ∧ instances.Instance.Status i = "deleted").
Proof.
  intros Hw. apply poll_success_inv in Hw as (w0 & p & Hp & He & Hs & Ht).
  simpl in Hp, Ht. apply list_elem_of_singleton in Ht. subst st.
  exists w0. unfold DbInstance.InstanceStateRefreshFunc, bind, ret in Hp.
  destruct (instances_Get client id w0) as [[err|i] w1].
  - destruct err; simpl in Hp; injection Hp as <- <-;
      try discriminate He; try discriminate Ht. left. eauto.
  - right. exists i. case_bool_decide; injection Hp as <- <-;
      [ discriminate He | ]. split; [ reflexivity | exact Ht ].
Qed.

Lemma config_group_delete_poll_success (rev : revision) (client : ServiceClient)
    (id : string) (window : nat) (delay interval : Z) (w w' : R) (st : string) :
  resource.WaitForState
    (resource.mkStateChangeConf R _ ["ACTIVE"; "SHUTOFF"] [DbConfigGroup.absent rev]
       (DbConfigGroup.DbConfigGroupStateRefreshFunc rev client id)
       window delay interval) w
  = ((st, None), w') →
  ∃ (w0 : R) (r : Result JSON) (msg : string),
    configurations_Get client id w0 = (r, w')
    ∧ DbConfigGroup.Extract r = inl (ErrDefault404 msg).
Proof.
  intros Hw. apply poll_success_inv in Hw as (w0 & p & Hp & He & Hs & Ht).
  simpl in Hp, Ht. apply list_elem_of_singleton in Ht. subst st.
  unfold DbConfigGroup.DbConfigGroupStateRefreshFunc, bind, ret in Hp.
  destruct (configurations_Get client id w0) as [r w1] eqn:Hg.
  destruct (DbConfigGroup.Extract r) as [err|i] eqn:Hx.
  - destruct err; simpl in Hp; injection Hp as <- <-;
      try discriminate He; try (destruct rev; discriminate Ht). eauto.
  - injection Hp as <- <-. destruct rev; discriminate Ht.
Qed.

(** X7: Delete of an instance or of a configuration group returns no
    error only after the remote accepted the delete request and a later
    fetch of the identifier showed the object gone: a 404, or for an
    instance also a fetched status "deleted".  The remote is left as that
    fetch left it. *)
Theorem delete_succeeds_only_on_observed_absence (meta : Config) (w w' : R) :
  (∀ d d' : DbInstance.ResourceData,
     DbInstance.resourceDatabaseInstanceDelete d meta w = ((None, d'), w') →
     ∃ (client : ServiceClient) (w1 w0 : R),
       databaseInstanceClient meta (GetRegion (DbInstance.region d) meta) = inr client
       ∧ instances_Delete client (DbInstance.Id d) w = (None, w1)
       ∧ ((∃ msg : string,
             instances_Get client (DbInstance.Id d) w0
             = (inl (ErrDefault404 msg), w'))
          ∨ (∃ i : instances.Instance.t,
               instances_Get client (DbInstance.Id d) w0 = (inr i, w')
               ∧ instances.Instance.Status i = "deleted")))
  ∧ (∀ (rev : revision) (d d' : DbConfigGroup.ResourceData),
       DbConfigGroup.resourceDbConfigGroupDelete rev d meta w = ((None, d'), w') →
       ∃ (client : ServiceClient) (w1 w0 : R) (r : Result JSON) (msg : string),
         databaseInstanceClient meta (GetRegion (DbConfigGroup.region d) meta)
         = inr client
         ∧ configurations_Delete client (DbConfigGroup.Id d) w = (None, w1)
         ∧ configurations_Get client (DbConfigGroup.Id d) w0 = (r, w')
         ∧ DbConfigGroup.Extract r = inl (ErrDefault404 msg)).
Proof.
  split.
  - intros d d'. unfold DbInstance.resourceDatabaseInstanceDelete, bind, ret.
    destruct (databaseInstanceClient meta _) as [err|client] eqn:Hc;
      [ discriminate | ].
    destruct (instances_Delete client (DbInstance.Id d) w) as [[err|] w1] eqn:Hd;
      [ discriminate | ].
    destruct (resource.WaitForState _ w1) as [[st [err|]] w2] eqn:Hw;
      [ discriminate | ].
    intros [= _ <-]. apply instance_delete_poll_success in Hw as [w0 Hw].
    exists client, w1, w0. auto.
  - intros rev d d'. unfold DbConfigGroup.resourceDbConfigGroupDelete, bind, ret.
    destruct (databaseInstanceClient meta _) as [err|client] eqn:Hc;
      [ discriminate | ].
    destruct (configurations_Delete client (DbConfigGroup.Id d) w)
      as [[err|] w1] eqn:Hd; [ discriminate | ].
    destruct (resource.WaitForState _ w1) as [[st [err|]] w2] eqn:Hw;
      [ discriminate | ].
    intros [= _ <-].
    apply config_group_delete_poll_success in Hw as (w0 & r & msg & Hg & Hx).
    exists client, w1, w0, r, msg. auto.
Qed.

End DeleteOutcome.

Lemma delete_clears_the_identifier_or_changes_nothing_witness :
  DbInstance.SetId "" Scenario.instance_adopted
  = DbInstance.SetId "" Scenario.instance_adopted
  ∧ Scenario.cg_adopted = Scenario.cg_adopted.
Proof.
  split.
  - exact (proj1 (@delete_clears_the_identifier_or_changes_nothing
                    Scripted.World Scripted.cloud tt
                    MoreScenarios.instance_going
                    (Scripted.mkWorld None None "I1" [] [] [] []))
             Scenario.instance_adopted (DbInstance.SetId "" Scenario.instance_adopted)
             None eq_refl).
  - exact (proj1 (proj2 (@delete_clears_the_identifier_or_changes_nothing
                           Scripted.World Scripted.cloud tt
                           Scenario.cg_absent Scenario.cg_absent))
             unnamed_part Scenario.cg_adopted Scenario.cg_adopted
             (Some (errorString
                "Error deleting cloud configuration: Resource not found"))
             eq_refl).
Defined.

Lemma delete_succeeds_only_on_observed_absence_witness :
  ∃ w0 : Scripted.World,
    (∃ msg : string,
       Scripted.get_instance w0
       = (inl (ErrDefault404 msg), Scripted.mkWorld None None "I1" [] [] [] []))
    ∨ (∃ i : instances.Instance.t,
         Scripted.get_instance w0
         = (inr i, Scripted.mkWorld None None "I1" [] [] [] [])
         ∧ instances.Instance.Status i = "deleted").
Proof.
  destruct (proj1 (@delete_succeeds_only_on_observed_absence
                     Scripted.World Scripted.cloud tt
                     MoreScenarios.instance_going
                     (Scripted.mkWorld None None "I1" [] [] [] []))
              Scenario.instance_adopted (DbInstance.SetId "" Scenario.instance_adopted)
              eq_refl)
    as (client & w1 & w0 & _ & _ & Hseen).
  exists w0. exact Hseen.
Defined.

(** ** Request building *)

Lemma getDatabases_from (acc : databases.BatchCreateOpts) (v : list string) :
  foldl (λ dbs db, (dbs ++ [databases.CreateOpts.mk db "" ""])%list) acc v
  = (acc ++ map (λ db, databases.CreateOpts.mk db "" "") v)%list.
Proof.
  revert acc. induction v as [|db v IH]; intros acc; simpl.
  - rewrite app_nil_r. reflexivity.
  - rewrite IH. rewrite <- app_assoc. reflexivity.
Qed.

(** X8: [getDatabases] yields one create option per given name, in the
    order given and of the same number, each with that name and with empty
    charset and collate; reading the names back gives the list it was
    given. *)
Theorem getDatabases_one_option_per_name (v : list string) :
  DbInstance.getDatabases v = map (λ db, databases.CreateOpts.mk db "" "") v
  ∧ map databases.CreateOpts.Name (DbInstance.getDatabases v) = v
  ∧ length (DbInstance.getDatabases v) = length v
  ∧ Forall (λ o, databases.CreateOpts.CharSet o = ""
                 ∧ databases.CreateOpts.Collate o = "")
           (DbInstance.getDatabases v).
Proof.
  assert (Hmap : DbInstance.getDatabases v
                 = map (λ db, databases.CreateOpts.mk db "" "") v).
  { unfold DbInstance.getDatabases. rewrite getDatabases_from. reflexivity. }
  rewrite Hmap. split; [ reflexivity | ]. split; [ | split ].
  - rewrite map_map. simpl. apply map_id.
  - apply length_map.
  - apply Forall_forall. intros o Ho. apply list_elem_of_In in Ho.
    apply in_map_iff in Ho as (db & <- & _). split; reflexivity.
Qed.

(** ** The values map of a configuration group *)

Lemma values_loop_keys (cfg : list DbConfigGroup.configuration_block)
    (m : gmap string value) (k : string) :
  is_Some (foldl (λ values z,
                    <[ DbConfigGroup.cfg_name z
                       := DbConfigGroup.coerce (DbConfigGroup.cfg_value z) ]> values)
                 m cfg !! k)
  ↔ is_Some (m !! k) ∨ k ∈ map DbConfigGroup.cfg_name cfg.
Proof.
  revert m. induction cfg as [|z cfg IH]; intros m; simpl.
  - split; [ auto | intros [H|H]; [ exact H | ] ].
    apply elem_of_nil in H. destruct H.
  - rewrite IH. rewrite elem_of_cons.
    destruct (decide (DbConfigGroup.cfg_name z = k)) as [->|Hne].
    + rewrite lookup_insert_eq. split; [ auto | intros _; left; eauto ].
    + rewrite lookup_insert_ne by exact Hne.
      split; [ intros [H|H]; auto | intros [H|[H|H]]; auto; congruence ].
Qed.

Lemma values_loop_provenance (cfg : list DbConfigGroup.configuration_block)
    (m : gmap string value) (k : string) (v : value) :
  foldl (λ values z,
           <[ DbConfigGroup.cfg_name z
              := DbConfigGroup.coerce (DbConfigGroup.cfg_value z) ]> values)
        m cfg !! k = Some v →
  m !! k = Some v
  ∨ ∃ z : DbConfigGroup.configuration_block,
      z ∈ cfg ∧ DbConfigGroup.cfg_name z = k
      ∧ v = DbConfigGroup.coerce (DbConfigGroup.cfg_value z).
Proof.
  revert m. induction cfg as [|z cfg IH]; intros m; simpl; [ auto | ].
  intros H. apply IH in H as [H|(z' & Hin & Hn & Hv)].
  - destruct (decide (DbConfigGroup.cfg_name z = k)) as [Heq|Hne].
    + rewrite <- Heq in H. rewrite lookup_insert_eq in H. injection H as <-.
      right. exists z. split; [ apply list_elem_of_here | auto ].
    + rewrite lookup_insert_ne in H by exact Hne. left. exact H.
  - right. exists z'. split; [ apply list_elem_of_further; exact Hin | auto ].
Qed.

Lemma Atoi_in_range (s : string) (n : Z) :
  strconv.Atoi s = Some n → (- 2 ^ 63 ≤ n ≤ 2 ^ 63 - 1)%Z.
Proof.
  assert (Hu : ∀ neg t, strconv.unsigned neg t = Some n →
                        (- 2 ^ 63 ≤ n ≤ 2 ^ 63 - 1)%Z).
  { intros neg t. unfold strconv.unsigned.
    destruct t as [|c t]; [ discriminate | ].
    destruct (strconv.digits 0 (String c t)) as [m|]; [ | discriminate ].
    destruct (strconv.in_int (if neg then (- m)%Z else m)) eqn:Hr; [ | discriminate ].
    intros [= <-]. unfold strconv.in_int in Hr.
    apply andb_true_iff in Hr as [H1 H2].
    apply Z.leb_le in H1. apply Z.leb_le in H2. split; assumption. }
  unfold strconv.Atoi. destruct s as [|c s]; [ apply (Hu false) | ].
  destruct (Ascii.ascii_dec c "-") as [->|H1]; [ apply (Hu true) | ].
  destruct (Ascii.ascii_dec c "+") as [->|H2]; [ apply (Hu false) | ].
  intros H. apply (Hu false (String c s)).
  destruct c as [[] [] [] [] [] [] [] []]; try exact H; congruence.
Qed.

(** X9: the keys of the values map are declared names, and which ones is
    fixed by the revision: the later revision has a key for every declared
    name, the earlier one for the name of the first declared pair only (and
    none when nothing is declared). *)
Theorem values_keys_are_the_declared_names
    (cfg : list DbConfigGroup.configuration_block) (k : string) :
  (is_Some (DbConfigGroup.values unnamed_part cfg !! k)
   ↔ k ∈ map DbConfigGroup.cfg_name cfg)
  ∧ (is_Some (DbConfigGroup.values openstack_dir cfg !! k)
     ↔ head (map DbConfigGroup.cfg_name cfg) = Some k).
Proof.
  split.
  - unfold DbConfigGroup.values. rewrite values_loop_keys.
    rewrite lookup_empty. split; [ intros [[x H]|H]; [ discriminate | exact H ] | auto ].
  - destruct cfg as [|z cfg]; simpl.
    + rewrite lookup_empty. split; [ intros [x H] | intros H ]; discriminate.
    + destruct (decide (DbConfigGroup.cfg_name z = k)) as [->|Hne].
      * rewrite lookup_singleton_eq. split; eauto.
      * rewrite lookup_singleton_ne by exact Hne.
        split; [ intros [x H]; discriminate | intros [= H]; contradiction ].
Qed.

(** X10: every entry of the values map of the later revision comes from
    a declared pair of that name: a string entry is the declared string
    itself, and then [strconv.Atoi] rejects it; an integer entry is what
    [strconv.Atoi] makes of the declared string, within Go's 64-bit int. *)
Theorem values_entries_come_from_declared_pairs
    (cfg : list DbConfigGroup.configuration_block) (k : string) (v : value) :
  DbConfigGroup.values unnamed_part cfg !! k = Some v →
  ∃ z : DbConfigGroup.configuration_block,
    z ∈ cfg
    ∧ DbConfigGroup.cfg_name z = k
    ∧ match v with
      | VString s => s = DbConfigGroup.cfg_value z ∧ strconv.Atoi s = None
      | VInt n =>
          strconv.Atoi (DbConfigGroup.cfg_value z) = Some n
          ∧ (- 2 ^ 63 ≤ n ≤ 2 ^ 63 - 1)%Z
      end.
Proof.
  unfold DbConfigGroup.values. intros H.
  apply values_loop_provenance in H as [H|(z & Hin & Hn & Hv)];
    [ rewrite lookup_empty in H; discriminate | ].
  exists z. split; [ exact Hin | split; [ exact Hn | ] ].
  unfold DbConfigGroup.coerce in Hv.
  destruct (strconv.Atoi (DbConfigGroup.cfg_value z)) as [n|] eqn:Ha; subst v.
  - split; [ reflexivity | eapply Atoi_in_range; exact Ha ].
  - split; [ reflexivity | exact Ha ].
Qed.

Lemma values_entries_come_from_declared_pairs_witness :
  ∃ z : DbConfigGroup.configuration_block,
    z ∈ DbConfigGroup.configuration Scenario.cg_declared
    ∧ DbConfigGroup.cfg_name z = "max_connections"
    ∧ strconv.Atoi (DbConfigGroup.cfg_value z) = Some 5%Z
    ∧ (- 2 ^ 63 ≤ 5 ≤ 2 ^ 63 - 1)%Z.
Proof.
  exact (values_entries_come_from_declared_pairs
           (DbConfigGroup.configuration Scenario.cg_declared)
           "max_connections" (VInt 5) eq_refl).
Defined.

(** ** The earlier revision's own Create and Extract *)

Section OwnCreate.
Context {R : Type} `{!OpenStack R}.

(** X11: in the earlier revision a request that cannot be encoded is
    never posted: [Create] hands back the encoder's error with no body and
    the remote untouched, [Extract] gives an error of the result precedence
    over whatever body there is, and [resourceDbConfigGroupCreate] returns
    that error behind its prefix without polling and without adopting
    anything.  An error of the post itself comes back the same way, the
    remote being left as the post left it. *)
Theorem own_create_surfaces_encoder_and_post_errors
    (meta : Config) (client : ServiceClient) (d : DbConfigGroup.ResourceData)
    (w : R) :
  databaseInstanceClient meta (GetRegion (DbConfigGroup.region d) meta) = inr client →
  (∀ (r : Result JSON) (err : error),
     Err r = Some err → DbConfigGroup.Extract r = inl err)
  ∧ (∀ err : error,
       ToConfigCreateMap (DbConfigGroup.createOpts openstack_dir d) = inl err →
       DbConfigGroup.Create client (DbConfigGroup.createOpts openstack_dir d) w
       = (mkResult None (Some err), w)
       ∧ DbConfigGroup.resourceDbConfigGroupCreate openstack_dir d meta w
         = ((Some (errorString
                     ("Error creating cloud database configuration: "
                      +:+ Error err)), d), w))
  ∧ (∀ (b : JSON) (body : option JSON) (err : error) (w1 : R),
       ToConfigCreateMap (DbConfigGroup.createOpts openstack_dir d) = inr b →
       Post client (ServiceURL client "configurations") b [200%Z] w
       = ((body, Some err), w1) →
       DbConfigGroup.resourceDbConfigGroupCreate openstack_dir d meta w
       = ((Some (errorString
                   ("Error creating cloud database configuration: "
                    +:+ Error err)), d), w1)).
Proof.
  intros Hc. split; [ | split ].
  - intros r err He. unfold DbConfigGroup.Extract, DbConfigGroup.ExtractInto.
    rewrite He. reflexivity.
  - intros err Hm. split.
    + unfold DbConfigGroup.Create. rewrite Hm. reflexivity.
    + unfold DbConfigGroup.resourceDbConfigGroupCreate, bind.
      rewrite Hc. unfold DbConfigGroup.create_call, DbConfigGroup.Create.
      rewrite Hm. reflexivity.
  - intros b body err w1 Hm Hp.
    unfold DbConfigGroup.resourceDbConfigGroupCreate, bind.
    rewrite Hc. unfold DbConfigGroup.create_call, DbConfigGroup.Create, bind.
    rewrite Hm. unfold DbConfigGroup.baseURL. rewrite Hp. reflexivity.
Qed.

End OwnCreate.

Lemma own_create_surfaces_encoder_and_post_errors_witness :
  @DbConfigGroup.resourceDbConfigGroupCreate Scripted.World Offline.strict
    openstack_dir Scenario.cg_declared tt Scenario.cg_in_error
  = ((Some (errorString
       "Error creating cloud database configuration: Missing input for argument [Name]"),
      Scenario.cg_declared), Scenario.cg_in_error).
Proof.
  exact (proj2 (proj1 (proj2
           (@own_create_surfaces_encoder_and_post_errors
              Scripted.World Offline.strict tt tt Scenario.cg_declared
              Scenario.cg_in_error eq_refl))
           Offline.unencodable eq_refl)).
Defined.

(** ** The acceptance check *)

Section AcceptanceCheck.
Context {R : Type} `{!OpenStack R}.

(** X12: [testAccCheckDatabaseInstanceExists] returns no error exactly
    when the state holds the named resource with a non-empty identifier, a
    client can be built, and the fetch of that identifier returns an
    instance bearing it; the instance handed in is then replaced by the
    fetched one.  In every other case the instance handed in is handed
    back untouched, and a resource that is not in the state or has an empty
    identifier fails the check before anything is fetched. *)
Theorem acceptance_check_passes_exactly_on_a_matching_fetch
    (n : string) (instance : instances.Instance.t) (meta : Config)
    (OS_REGION_NAME : string) (s : gmap string terraform.ResourceState) (w : R) :
  (∀ (out : instances.Instance.t) (w' : R),
     AccTest.testAccCheckDatabaseInstanceExists n instance meta OS_REGION_NAME s w
     = ((None, out), w')
     ↔ ∃ (rs : terraform.ResourceState) (client : ServiceClient),
         s !! n = Some rs
         ∧ terraform.ID (terraform.Primary rs) ≠ ""
         ∧ databaseInstanceClient meta OS_REGION_NAME = inr client
         ∧ instances_Get client (terraform.ID (terraform.Primary rs)) w
           = (inr out, w')
         ∧ instances.Instance.ID out = terraform.ID (terraform.Primary rs))
  ∧ (∀ (err : error) (out : instances.Instance.t) (w' : R),
       AccTest.testAccCheckDatabaseInstanceExists n instance meta OS_REGION_NAME s w
       = ((Some err, out), w') →
       out = instance)
  ∧ (s !! n = None →
     AccTest.testAccCheckDatabaseInstanceExists n instance meta OS_REGION_NAME s w
     = ((Some (errorString ("Not found: " +:+ n)), instance), w))
  ∧ (∀ rs : terraform.ResourceState,
       s !! n = Some rs →
       terraform.ID (terraform.Primary rs) = "" →
       AccTest.testAccCheckDatabaseInstanceExists n instance meta OS_REGION_NAME s w
       = ((Some (errorString "No ID is set"), instance), w)).
Proof.
  unfold AccTest.testAccCheckDatabaseInstanceExists, bind, ret.
  split; [ | split; [ | split ] ].
  - intros out w'. split.
    + destruct (s !! n) as [rs|]; [ | discriminate ].
      case_bool_decide as Hid; [ discriminate | ].
      destruct (databaseInstanceClient meta OS_REGION_NAME) as [err|client];
        [ discriminate | ].
      destruct (instances_Get client _ w) as [[err|found] w1] eqn:Hg;
        [ discriminate | ].
      case_bool_decide as Hfound; [ discriminate | ].
      intros [= <- <-]. exists rs, client.
      repeat split; first [ assumption | reflexivity | apply dec_stable; exact Hfound ].
    + intros (rs & client & Hs & Hid & Hc & Hg & Hfound).
      rewrite Hs. rewrite bool_decide_eq_false_2 by exact Hid.
      rewrite Hc, Hg.
      rewrite bool_decide_eq_false_2 by (intros Hne; exact (Hne Hfound)).
      reflexivity.
  - intros err out w'.
    destruct (s !! n) as [rs|]; [ | intros [= _ <- _]; reflexivity ].
    case_bool_decide; [ intros [= _ <- _]; reflexivity | ].
    destruct (databaseInstanceClient meta OS_REGION_NAME) as [e|client];
      [ intros [= _ <- _]; reflexivity | ].
    destruct (instances_Get client _ w) as [[e|found] w1];
      [ intros [= _ <- _]; reflexivity | ].
    case_bool_decide; [ intros [= _ <- _]; reflexivity | discriminate ].
  - intros Hs. rewrite Hs. reflexivity.
  - intros rs Hs Hid. rewrite Hs. rewrite bool_decide_eq_true_2 by exact Hid.
    reflexivity.
Qed.

End AcceptanceCheck.

Lemma acceptance_check_passes_exactly_on_a_matching_fetch_witness :
  AccTest.testAccCheckDatabaseInstanceExists "openstack_db_instance.missing"
    (Scenario.I1 "") tt "RegionOne" MoreScenarios.state_with_basic
    MoreScenarios.instance_active
  = ((Some (errorString "Not found: openstack_db_instance.missing"),
      Scenario.I1 ""), MoreScenarios.instance_active)
  ∧ AccTest.testAccCheckDatabaseInstanceExists "openstack_db_instance.basic"
      (Scenario.I1 "") tt "RegionOne" MoreScenarios.state_with_basic
      MoreScenarios.instance_going
    = ((None, Scenario.I1 "ACTIVE"), Scripted.mkWorld None None "I1" [] [] [] []).
Proof.
  split.
  - refine (proj1 (proj2 (proj2
              (@acceptance_check_passes_exactly_on_a_matching_fetch
                 Scripted.World Scripted.cloud "openstack_db_instance.missing"
                 (Scenario.I1 "") tt "RegionOne" MoreScenarios.state_with_basic
                 MoreScenarios.instance_active))) _).
    vm_compute; reflexivity.
  - apply (proj1 (@acceptance_check_passes_exactly_on_a_matching_fetch
                    Scripted.World Scripted.cloud "openstack_db_instance.basic"
                    (Scenario.I1 "") tt "RegionOne" MoreScenarios.state_with_basic
                    MoreScenarios.instance_going)).
    exists (terraform.mkResourceState (terraform.mkInstanceState "I1")), tt.
    repeat split; first [ discriminate | vm_compute; reflexivity ].
Defined.

(** ** Operations without a client *)

Section NoClient.
Context {R : Type} `{!OpenStack R}.

(** X13: when the provider cannot build a client, none of the twelve
    operations calls the remote or touches the data: each returns the
    client error behind its own prefix, with the declared data and the
    remote exactly as they were. *)
Theorem no_client_no_remote_call (meta : Config) (err : error) (w : R) :
  (∀ d : Database.ResourceData,
     databaseInstanceClient meta (GetRegion (Database.region d) meta) = inl err →
     Database.resourceDatabaseCreate d meta w
     = ((Some (errorString
                 ("Error creating cloud database client: " +:+ Error err)), d), w)
     ∧ Database.resourceDatabaseRead d meta w
       = ((Some (errorString
                   ("Error creating OpenStack cloud database client: "
                    +:+ Error err)), d), w)
     ∧ Database.resourceDatabaseDelete d meta w
       = ((Some (errorString
                   ("Error creating OpenStack cloud database client: "
                    +:+ Error err)), d), w))
  ∧ (∀ d : DbUser.ResourceData,
       databaseInstanceClient meta (GetRegion (DbUser.region d) meta) = inl err →
       DbUser.resourceDbUserCreate d meta w
       = ((Some (errorString
                   ("Error creating cloud database client: " +:+ Error err)), d), w)
       ∧ DbUser.resourceDbUserRead d meta w
         = ((Some (errorString
                     ("Error creating OpenStack cloud database client: "
                      +:+ Error err)), d), w)
       ∧ DbUser.resourceDbUserDelete d meta w
         = ((Some (errorString
                     ("Error creating OpenStack cloud database client: "
                      +:+ Error err)), d), w))
  ∧ (∀ (rev : revision) (d : DbInstance.ResourceData),
       databaseInstanceClient meta (GetRegion (DbInstance.region d) meta) = inl err →
       DbInstance.resourceDatabaseInstanceCreate rev d meta w
       = ((Some (errorString
                   ("Error creating cloud database client: " +:+ Error err)), d), w)
       ∧ DbInstance.resourceDatabaseInstanceRead d meta w
         = ((Some (errorString
                     ("Error creating OpenStack cloud database client: "
                      +:+ Error err)), d), w)
       ∧ DbInstance.resourceDatabaseInstanceDelete d meta w
         = ((Some (errorString
                     ("Error creating RS cloud instance client: "
                      +:+ Error err)), d), w))
  ∧ (∀ (rev : revision) (d : DbConfigGroup.ResourceData),
       databaseInstanceClient meta (GetRegion (DbConfigGroup.region d) meta)
       = inl err →
       DbConfigGroup.resourceDbConfigGroupCreate rev d meta w
       = ((Some (errorString
                   ("Error creating cloud database client: " +:+ Error err)), d), w)
       ∧ DbConfigGroup.resourceDbConfigGroupRead d meta w
         = ((Some (errorString
                     ("Error creating OpenStack cloud database client: "
                      +:+ Error err)), d), w)
       ∧ DbConfigGroup.resourceDbConfigGroupDelete rev d meta w
         = ((Some (errorString
                     ("Error creating RS cloud instance client: "
                      +:+ Error err)), d), w)).
Proof.
  repeat apply conj; intros; repeat apply conj.
  - unfold Database.resourceDatabaseCreate. rewrite H. reflexivity.
  - unfold Database.resourceDatabaseRead. rewrite H. reflexivity.
  - unfold Database.resourceDatabaseDelete. rewrite H. reflexivity.
  - unfold DbUser.resourceDbUserCreate. rewrite H. reflexivity.
  - unfold DbUser.resourceDbUserRead. rewrite H. reflexivity.
  - unfold DbUser.resourceDbUserDelete. rewrite H. reflexivity.
  - unfold DbInstance.resourceDatabaseInstanceCreate. rewrite H. reflexivity.
  - unfold DbInstance.resourceDatabaseInstanceRead. rewrite H. reflexivity.
  - unfold DbInstance.resourceDatabaseInstanceDelete. rewrite H. reflexivity.
  - unfold DbConfigGroup.resourceDbConfigGroupCreate. rewrite H. reflexivity.
  - unfold DbConfigGroup.resourceDbConfigGroupRead. rewrite H. reflexivity.
  - unfold DbConfigGroup.resourceDbConfigGroupDelete. rewrite H. reflexivity.
Qed.

End NoClient.

Lemma no_client_no_remote_call_witness :
  @DbInstance.resourceDatabaseInstanceDelete Scripted.World Offline.cloud
    Scenario.instance_adopted tt MoreScenarios.instance_active
  = ((Some (errorString
       "Error creating RS cloud instance client: No suitable endpoint could be found in the service catalog."),
      Scenario.instance_adopted), MoreScenarios.instance_active).
Proof.
  exact (proj2 (proj2 (proj1 (proj2 (proj2
           (@no_client_no_remote_call Scripted.World Offline.cloud tt
              Offline.no_endpoint MoreScenarios.instance_active)))
           unnamed_part Scenario.instance_adopted eq_refl))).
Defined.

(** ** The two revisions side by side *)

Section Revisions.
Context {R : Type} `{!OpenStack R}.




End Revisions.


(** ** What a successful Create has seen *)

Section CreateSawTheObject.
Context {R : Type} `{!OpenStack R}.




(** X17: Create and Read of an instance never change the declared size,
    network, database and user blocks or the timeouts, and Create and Read
    of a configuration group never change the declared datastore and
    configuration blocks or the timeouts, whatever the remote answers:
    none of these is refreshed from the remote. *)
Theorem create_and_read_never_refresh_the_declared_blocks
    (meta : Config) (w w' : R) :
  (∀ (d d' : DbInstance.ResourceData) (res : option error),
     DbInstance.resourceDatabaseInstanceRead d meta w = ((res, d'), w')
     ∨ (∃ rev : revision,
          DbInstance.resourceDatabaseInstanceCreate rev d meta w = ((res, d'), w')) →
     DbInstance.size d' = DbInstance.size d
     ∧ DbInstance.network d' = DbInstance.network d
     ∧ DbInstance.database d' = DbInstance.database d
     ∧ DbInstance.user d' = DbInstance.user d
     ∧ DbInstance.TimeoutCreate d' = DbInstance.TimeoutCreate d
     ∧ DbInstance.TimeoutDelete d' = DbInstance.TimeoutDelete d)
  ∧ (∀ (d d' : DbConfigGroup.ResourceData) (res : option error),
       DbConfigGroup.resourceDbConfigGroupRead d meta w = ((res, d'), w')
       ∨ (∃ rev : revision,
            DbConfigGroup.resourceDbConfigGroupCreate rev d meta w
            = ((res, d'), w')) →
       DbConfigGroup.datastore d' = DbConfigGroup.datastore d
       ∧ DbConfigGroup.configuration d' = DbConfigGroup.configuration d
       ∧ DbConfigGroup.TimeoutCreate d' = DbConfigGroup.TimeoutCreate d
       ∧ DbConfigGroup.TimeoutDelete d' = DbConfigGroup.TimeoutDelete d).
Proof.
  assert (Hiread : ∀ (d d' : DbInstance.ResourceData) (res : option error) (w0 : R),
             DbInstance.resourceDatabaseInstanceRead d meta w0 = ((res, d'), w') →
             DbInstance.size d' = DbInstance.size d
             ∧ DbInstance.network d' = DbInstance.network d
             ∧ DbInstance.database d' = DbInstance.database d
             ∧ DbInstance.user d' = DbInstance.user d
             ∧ DbInstance.TimeoutCreate d' = DbInstance.TimeoutCreate d
             ∧ DbInstance.TimeoutDelete d' = DbInstance.TimeoutDelete d).
  { intros d d' res w0. unfold DbInstance.resourceDatabaseInstanceRead, bind, ret.
    destruct (databaseInstanceClient meta _) as [err|client];
      [ intros [= _ <- _]; repeat split | ].
    destruct (instances_Get client (DbInstance.Id d) w0) as [[err|i] w1].
    - unfold CheckDeleted. destruct (is_ErrDefault404 err);
        intros [= _ <- _]; repeat split.
    - intros [= _ <- _]; repeat split. }
  assert (Hcread : ∀ (d d' : DbConfigGroup.ResourceData) (res : option error) (w0 : R),
             DbConfigGroup.resourceDbConfigGroupRead d meta w0 = ((res, d'), w') →
             DbConfigGroup.datastore d' = DbConfigGroup.datastore d
             ∧ DbConfigGroup.configuration d' = DbConfigGroup.configuration d
             ∧ DbConfigGroup.TimeoutCreate d' = DbConfigGroup.TimeoutCreate d
             ∧ DbConfigGroup.TimeoutDelete d' = DbConfigGroup.TimeoutDelete d).
  { intros d d' res w0. unfold DbConfigGroup.resourceDbConfigGroupRead, bind, ret.
    destruct (databaseInstanceClient meta _) as [err|client];
      [ intros [= _ <- _]; repeat split | ].
    destruct (configurations_Get client (DbConfigGroup.Id d) w0) as [r w1].
    destruct (DbConfigGroup.Extract r) as [err|i].
    - unfold CheckDeleted. destruct (is_ErrDefault404 err);
        intros [= _ <- _]; repeat split.
    - intros [= _ <- _]; repeat split. }
  split.
  - intros d d' res [Hread | [rev Hcreate]]; [ eapply Hiread; exact Hread | ].
    revert Hcreate. unfold DbInstance.resourceDatabaseInstanceCreate, bind, ret.
    destruct (databaseInstanceClient meta _) as [err|client];
      [ intros [= _ <- _]; repeat split | ].
    destruct (instances_Create client _ w) as [[err|created] w1];
      [ intros [= _ <- _]; repeat split | ].
    destruct (resource.WaitForState _ w1) as [[st [err|]] w2];
      [ intros [= _ <- _]; repeat split | ].
    intros Hread. apply Hiread in Hread. exact Hread.
  - intros d d' res [Hread | [rev Hcreate]]; [ eapply Hcread; exact Hread | ].
    revert Hcreate. unfold DbConfigGroup.resourceDbConfigGroupCreate, bind, ret.
    destruct (databaseInstanceClient meta _) as [err|client];
      [ intros [= _ <- _]; repeat split | ].
    destruct (DbConfigGroup.create_call rev client _ w) as [r w1].
    destruct (DbConfigGroup.Extract r) as [err|created];
      [ intros [= _ <- _]; repeat split | ].
    destruct (resource.WaitForState _ w1) as [[st [err|]] w2];
      [ intros [= _ <- _]; repeat split | ].
    intros Hread. apply Hcread in Hread. exact Hread.
Qed.

End CreateSawTheObject.


Lemma create_and_read_never_refresh_the_declared_blocks_witness :
  DbInstance.size (DbInstance.Set_attrs (Scenario.I1 "ACTIVE") "RegionOne"
                     Scenario.instance_adopted)
  = 2%Z
  ∧ DbInstance.network (DbInstance.Set_attrs (Scenario.I1 "ACTIVE") "RegionOne"
                          Scenario.instance_adopted)
    = [Scenario.net1; Scenario.net2].
Proof.
  destruct (proj1 (@create_and_read_never_refresh_the_declared_blocks
                     Scripted.World Scripted.cloud tt
                     Scenario.instance_builds
                     (Scripted.mkWorld None None "I1" [] [] [] []))
              Scenario.instance_declared
              (DbInstance.Set_attrs (Scenario.I1 "ACTIVE") "RegionOne"
                 Scenario.instance_adopted)
              None (or_intror (ex_intro _ unnamed_part eq_refl)))
    as (Hsize & Hnet & _).
  split; [ exact Hsize | exact Hnet ].
Defined.
